(** * PDF Toolkit API: the redaction pipeline of [server/index.mjs]

    A shallow embedding of the Express handlers [GET /api/health] and
    [POST /api/redact-pdf] together with the helpers they call
    ([findBinary], [resolvePdftoppmBinary], [parseRedactions]).

    JavaScript numbers are IEEE 754 binary64 values and are modelled by
    Rocq's primitive floats.  The collaborators the server only calls
    (the file system, [JSON.parse], pdf-lib, the [pdftoppm] process) are
    gathered in a record [Host]; every definition below is parametric in
    it, so each theorem holds for every behaviour of those collaborators. *)

From Stdlib Require Import Floats ZArith NArith List String Ascii Bool Lia.
From Stdlib Require Import Sorted Permutation.
Import ListNotations.

Set Warnings "-inexact-float,-register-all".
Local Open Scope string_scope.

(** ** JavaScript numbers *)

Module Js.

(** [Number.isFinite(v)] on a value that is already a number. *)
Definition Number_isFinite (v : float) : bool := PrimFloat.is_finite v.

(** [a >= b], [a > b] and [a < b] on numbers; all are false on NaN. *)
Definition ge (a b : float) : bool := PrimFloat.leb b a.
Definition gt (a b : float) : bool := PrimFloat.ltb b a.
Definition lt (a b : float) : bool := PrimFloat.ltb a b.

(** [Math.min(a, b)]: NaN if either argument is NaN, and -0 is smaller
    than +0. *)
Definition Math_min (a b : float) : float :=
  if PrimFloat.is_nan a || PrimFloat.is_nan b then PrimFloat.nan
  else if PrimFloat.ltb a b then a
  else if PrimFloat.ltb b a then b
  else if PrimFloat.get_sign a then a else b.

(** [Math.max(a, b)]: NaN if either argument is NaN, and +0 is larger
    than -0. *)
Definition Math_max (a b : float) : float :=
  if PrimFloat.is_nan a || PrimFloat.is_nan b then PrimFloat.nan
  else if PrimFloat.ltb a b then b
  else if PrimFloat.ltb b a then a
  else if PrimFloat.get_sign a then b else a.

(** The integer a number denotes, when it denotes one (used for array
    indexing: [pages[index]] is [undefined] at any other index). *)
Definition to_integer (v : float) : option Z :=
  match Prim2SF v with
  | S754_zero _ => Some 0%Z
  | S754_finite s m e =>
      let mag :=
        match e with
        | Zneg k =>
            if (Z.pos m mod 2 ^ Z.pos k =? 0)%Z
            then Some (Z.pos m / 2 ^ Z.pos k)%Z else None
        | _ => Some (Z.pos m * 2 ^ e)%Z
        end in
      option_map (fun z => if s then (- z)%Z else z) mag
  | _ => None
  end.

Definition is_integer (v : float) : bool :=
  match to_integer v with Some _ => true | None => false end.

(** A length or count as a number. *)
Definition of_nat (n : nat) : float :=
  PrimFloat.of_uint63 (Uint63.of_Z (Z.of_nat n)).

(** What a [throw] carries: an [Error] with its message, or anything else. *)
Inductive Thrown : Type :=
| ErrorObject (message : string)
| OtherValue.

(** The result of an evaluation that may throw. *)
Inductive Completion (A : Type) : Type :=
| Normal (a : A)
| Abrupt (e : Thrown).
Arguments Normal {A} a.
Arguments Abrupt {A} e.

Definition cbind {A B} (c : Completion A) (k : A -> Completion B) : Completion B :=
  match c with
  | Normal a => k a
  | Abrupt e => Abrupt e
  end.

(** [array.map(f)] where [f] may throw: the first throw aborts the map. *)
Fixpoint map_throwing {A B} (f : A -> Completion B) (l : list A) : Completion (list B) :=
  match l with
  | [] => Normal []
  | a :: l' =>
      cbind (f a) (fun b => cbind (map_throwing f l') (fun bs => Normal (b :: bs)))
  end.

(** Values produced by [JSON.parse]. *)
Inductive Json : Type :=
| JNull
| JBool (b : bool)
| JNumber (n : float)
| JString (s : string)
| JArray (items : list Json)
| JObject (fields : list (string * Json)).

Fixpoint assoc {V} (k : string) (l : list (string * V)) : option V :=
  match l with
  | [] => None
  | (k', v) :: l' => if String.eqb k k' then Some v else assoc k l'
  end.

(** [value.key]: [None] is [undefined]; reading a property of [null]
    throws a TypeError.  Numbers, booleans, strings and arrays have no
    property with the names used here. *)
Definition get_property (value : Json) (key : string) : Completion (option Json) :=
  match value with
  | JNull => Abrupt (ErrorObject ("Cannot read properties of null (reading '" ++ key ++ "')"))
  | JObject fields => Normal (assoc key fields)
  | _ => Normal None
  end.

End Js.
Export Js.

(** ** The host: everything the server calls but does not implement *)

Definition bytes := list Byte.byte.

(** A directory is the list of its entries, in the order [readdir]
    reports them; the file system maps directory paths to directories. *)
Definition Dir := list (string * bytes).
Definition FileSystem := list (string * Dir).

Module Pdf.

(** An image embedded with [embedJpg]: its bytes and pixel dimensions. *)
Record PDFImage : Type := mkImage {
  imageBytes : bytes;
  imageWidth : float;
  imageHeight : float
}.

Inductive Color : Type := rgb (r g b : float).

(** What a page's content stream holds: operators that were in the
    loaded file (with the text an extractor reads from them, empty for
    vector graphics), rectangles drawn with [drawRectangle] and images
    drawn with [drawImage]. *)
Inductive ContentOp : Type :=
| SourceContent (text : string)
| Rectangle (x y width height : float) (color : Color)
| Image (img : PDFImage) (x y width height : float).

Record PDFPage : Type := mkPage {
  pageWidth : float;
  pageHeight : float;
  contents : list ContentOp
}.

Record PDFDocument : Type := mkDocument { pages : list PDFPage }.

(** [PDFDocument.create()] *)
Definition create : PDFDocument := mkDocument [].

Definition getPageCount (doc : PDFDocument) : nat := List.length (pages doc).

(** Text extraction over one page: the text of the content operators,
    in order.  Rectangles and images carry none. *)
Definition opText (op : ContentOp) : string :=
  match op with
  | SourceContent text => text
  | Rectangle _ _ _ _ _ => ""
  | Image _ _ _ _ _ => ""
  end.

Definition extractText (p : PDFPage) : string :=
  fold_right (fun op acc => opText op ++ acc) "" (contents p).

End Pdf.
Export Pdf.

Record Host : Type := mkHost {
  (* process.env *)
  env_QPDF_PATH : option string;
  env_LIBREOFFICE_PATH : option string;
  env_PDFTOPPM_PATH : option string;
  (* fs.access(candidate, X_OK) resolves *)
  access_X_OK : string -> bool;
  (* os.tmpdir() *)
  os_tmpdir : string;
  (* the directory fs.mkdtemp(prefix) creates, or the error it throws *)
  mkdtemp_pick : string -> FileSystem -> Completion string;
  (* fs.writeFile fails with this error (disk fault), if any *)
  writeFile_fault : string -> string -> option Thrown;
  (* fs.rm fails with this error, if any *)
  rm_fault : string -> option Thrown;
  (* child_process.execFile: what the process does to the file system,
     and the error of a non-zero exit, if any *)
  execFile : string -> list string -> FileSystem -> FileSystem * option Thrown;
  (* JSON.parse: None is a SyntaxError *)
  JSON_parse : string -> option Json;
  (* Number(v) for a string v *)
  StringToNumber : string -> float;
  (* Number(v) for an array or object v (ToPrimitive, then the string
     rule); it throws when no conversion method is callable *)
  ObjectToNumber : Json -> Completion float;
  (* pdf-lib *)
  PDFDocument_load : bytes -> Completion PDFDocument;
  PDFDocument_save : PDFDocument -> bytes;
  (* the error raised when [getPage(index)] and the [getSize()] after it
     are given a number that is not the position of a page *)
  noSuchPage : float -> nat -> Thrown;
  embedJpg : bytes -> Completion PDFImage
}.

(** ** Binary resolution and the health endpoint *)

Section Server.

Variable host : Host.

(** [findBinary(candidates)]: the first candidate [access] accepts. *)
Fixpoint findBinary (candidates : list string) : option string :=
  match candidates with
  | [] => None
  | candidate :: rest =>
      if access_X_OK host candidate then Some candidate else findBinary rest
  end.

(** [[process.env.X, ...].filter(Boolean)]: an unset or empty variable
    is dropped, the literal candidates are non-empty and stay. *)
Definition candidates_of (configured : option string) (fixed : list string) : list string :=
  match configured with
  | Some path => if String.eqb path "" then fixed else path :: fixed
  | None => fixed
  end.

Definition resolveQpdfBinary : option string :=
  findBinary (candidates_of (env_QPDF_PATH host)
    ["qpdf"; "C:/Program Files/qpdf/bin/qpdf.exe";
     "C:/Program Files (x86)/qpdf/bin/qpdf.exe"]).

Definition resolveLibreOfficeBinary : option string :=
  findBinary (candidates_of (env_LIBREOFFICE_PATH host)
    ["soffice"; "C:/Program Files/LibreOffice/program/soffice.exe";
     "C:/Program Files (x86)/LibreOffice/program/soffice.exe"]).

Definition resolvePdftoppmBinary : option string :=
  findBinary (candidates_of (env_PDFTOPPM_PATH host)
    ["pdftoppm"; "/usr/bin/pdftoppm";
     "C:/Program Files/poppler/bin/pdftoppm.exe"]).

(** [Boolean(v)] for [v] a string or [null]. *)
Definition Boolean_ (v : option string) : bool :=
  match v with
  | Some s => negb (String.eqb s "")
  | None => false
  end.

Record Binaries : Type := mkBinaries {
  qpdf : bool;
  libreoffice : bool;
  pdftoppm : bool
}.

Record Health : Type := mkHealth {
  ok : bool;
  binaries : Binaries
}.

(** The body [GET /api/health] answers with. *)
Definition health : Health :=
  let qpdf := resolveQpdfBinary in
  let soffice := resolveLibreOfficeBinary in
  let pdftoppm := resolvePdftoppmBinary in
  mkHealth true (mkBinaries (Boolean_ qpdf) (Boolean_ soffice) (Boolean_ pdftoppm)).

(** ** Redaction rules *)

(** The object the [.map] callback of [parseRedactions] builds. *)
Record Redaction : Type := mkRedaction {
  page : float;
  x : float;
  y : float;
  width : float;
  height : float
}.

(** [Number(v)]; [None] is [undefined]. *)
Definition Number_ (v : option Json) : Completion float :=
  match v with
  | None => Normal PrimFloat.nan
  | Some JNull => Normal 0%float
  | Some (JBool b) => Normal (if b then 1%float else 0%float)
  | Some (JNumber n) => Normal n
  | Some (JString s) => Normal (StringToNumber host s)
  | Some v => ObjectToNumber host v
  end.

Definition number_field (entry : Json) (key : string) : Completion float :=
  cbind (get_property entry key) Number_.

Definition toRedaction (entry : Json) : Completion Redaction :=
  cbind (number_field entry "page") (fun page =>
  cbind (number_field entry "x") (fun x =>
  cbind (number_field entry "y") (fun y =>
  cbind (number_field entry "width") (fun width =>
  cbind (number_field entry "height") (fun height =>
  Normal (mkRedaction page x y width height)))))).

(** The [.filter] callback of [parseRedactions]. *)
Definition keepRedaction (entry : Redaction) : bool :=
  Number_isFinite (page entry)
  && Number_isFinite (x entry)
  && Number_isFinite (y entry)
  && Number_isFinite (width entry)
  && Number_isFinite (height entry)
  && ge (page entry) 1
  && ge (x entry) 0
  && ge (y entry) 0
  && gt (width entry) 0
  && gt (height entry) 0.

(** [parseRedactions(raw)]; [raw] is [None] when the form has no
    [redactions] field.  [String(raw || '[]')] is ['[]'] for a missing
    or empty field, and [JSON.parse('[]')] is the empty array. *)
Definition parseRedactions (raw : option string) : Completion (list Redaction) :=
  let parsed :=
    match raw with
    | None => Some (JArray [])
    | Some text => if String.eqb text "" then Some (JArray []) else JSON_parse host text
    end in
  match parsed with
  | None => Normal []
  | Some (JArray items) =>
      cbind (map_throwing toRedaction items) (fun entries =>
      Normal (filter keepRedaction entries))
  | Some _ => Normal []
  end.

(** ** Rasterizer output names *)

Definition is_digit (c : ascii) : bool :=
  let n := nat_of_ascii c in (48 <=? n)%nat && (n <=? 57)%nat.

(** Case folding of the [i] flag: an ASCII letter and its other case. *)
Definition upcase (c : ascii) : ascii :=
  let n := nat_of_ascii c in
  if (97 <=? n)%nat && (n <=? 122)%nat then ascii_of_nat (n - 32) else c.

(** Match a literal at the start of [s], ignoring case; the result is
    what follows it. *)
Fixpoint match_literal_i (literal s : string) : option string :=
  match literal, s with
  | EmptyString, _ => Some s
  | String p literal', String c s' =>
      if Ascii.eqb (upcase p) (upcase c) then match_literal_i literal' s' else None
  | String _ _, EmptyString => None
  end.

(** The longest run of digits at the start of [s], and what follows it. *)
Fixpoint take_digits (s : string) : string :=
  match s with
  | String c s' => if is_digit c then String c (take_digits s') else EmptyString
  | EmptyString => EmptyString
  end.

Fixpoint drop_digits (s : string) : string :=
  match s with
  | String c s' => if is_digit c then drop_digits s' else s
  | EmptyString => EmptyString
  end.

(** [/^redacted-page-\d+\.jpg$/i.test(name)] *)
Definition isRedactedPageJpg (name : string) : bool :=
  match match_literal_i "redacted-page-" name with
  | Some rest =>
      negb (String.eqb (take_digits rest) "")
      && match match_literal_i ".jpg" (drop_digits rest) with
         | Some EmptyString => true
         | _ => false
         end
  | None => false
  end.

(** [name.match(/(\d+)/)?.[0]]: the leftmost, longest run of digits. *)
Fixpoint firstDigits (name : string) : option string :=
  match name with
  | EmptyString => None
  | String c name' => if is_digit c then Some (take_digits name) else firstDigits name'
  end.

(** [Number(digits)] for a string of decimal digits, as the integer it
    denotes.  A JavaScript number is that integer below 2^53 and a
    rounding of it from there on, so this is [Number] on page numbers
    below 2^53 only; every statement about page numbers carries that
    bound. *)
Fixpoint decimal (acc : N) (digits : string) : N :=
  match digits with
  | EmptyString => acc
  | String c digits' => decimal (10 * acc + N.of_nat (nat_of_ascii c - 48)) digits'
  end.

(** [Number(name.match(/(\d+)/)?.[0] || 0)] *)
Definition pageNumberOf (name : string) : N :=
  match firstDigits name with
  | Some digits => decimal 0 digits
  | None => 0
  end.

(** The comparator given to [sort]: [numA - numB]. *)
Definition byPageNumber (a b : string) : Z :=
  let numA := pageNumberOf a in
  let numB := pageNumberOf b in
  (Z.of_N numA - Z.of_N numB)%Z.

(** [Array.prototype.sort(compare)]: a stable sort; [a] goes before [b]
    when [compare(a, b) < 0] and elements that compare equal keep their
    order. *)
Fixpoint sort_insert {A} (compare : A -> A -> Z) (a : A) (sorted : list A) : list A :=
  match sorted with
  | [] => [a]
  | b :: rest =>
      if (compare a b <=? 0)%Z then a :: sorted
      else b :: sort_insert compare a rest
  end.

Definition Array_sort {A} (compare : A -> A -> Z) (l : list A) : list A :=
  fold_right (sort_insert compare) [] l.

(** The images to reassemble, from the names [readdir] reports. *)
Definition generatedImages (names : list string) : list string :=
  Array_sort byPageNumber (filter isRedactedPageJpg names).

(** ** The request handler's effects *)

Inductive Response : Type :=
| json (status : nat) (error : string)                 (* res.status(s).json({ error }) *)
| send (contentType disposition : string) (body : bytes). (* setHeader x2, res.send: status 200 *)

Definition statusOf (r : Response) : nat :=
  match r with
  | json status _ => status
  | send _ _ _ => 200
  end.

(** The calls that reach outside the handler, in the order made. *)
Inductive Event : Type :=
| Mkdtemp (dir : string)
| Load
| WriteFile (dir name : string)
| ExecFile (file : string) (args : list string)
| Rm (dir : string).

Record World : Type := mkWorld {
  fs : FileSystem;
  trace : list Event;
  response : option Response
}.

(** An asynchronous step: it runs in a world, completes normally or
    throws, and leaves a world. *)
Definition Action (A : Type) : Type := World -> Completion A * World.

Definition ret {A} (a : A) : Action A := fun w => (Normal a, w).

Definition bind {A B} (m : Action A) (k : A -> Action B) : Action B :=
  fun w =>
    match m w with
    | (Normal a, w') => k a w'
    | (Abrupt e, w') => (Abrupt e, w')
    end.

Notation "x <- m ;; k" := (bind m (fun x => k))
  (at level 61, m at next level, right associativity).
Notation "m ;;; k" := (bind m (fun _ => k))
  (at level 61, right associativity).

Definition lift {A} (c : Completion A) : Action A := fun w => (c, w).

Definition log (e : Event) (w : World) : World :=
  mkWorld (fs w) (trace w ++ [e])%list (response w).

Definition respond (r : Response) : Action unit :=
  fun w => (Normal tt, mkWorld (fs w) (trace w) (Some r)).

(** [try { body } catch (error) { handler } finally { finalizer }] *)
Definition try_catch_finally {A} (body : Action A) (handler : Thrown -> Action A)
    (finalizer : Action unit) : Action A :=
  fun w =>
    let (result, w1) :=
      match body w with
      | (Normal a, w') => (Normal a, w')
      | (Abrupt e, w') => handler e w'
      end in
    match finalizer w1 with
    | (Normal _, w2) => (result, w2)
    | (Abrupt e, w2) => (Abrupt e, w2)
    end.

(** *** File system calls

    A path below the temporary directory is kept as the pair of the
    directory and the entry name; [path_join] gives the string handed to
    the rasterizer. *)

Definition path_join (dir name : string) : string := dir ++ "/" ++ name.

Fixpoint dir_write (name : string) (data : bytes) (d : Dir) : Dir :=
  match d with
  | [] => [(name, data)]
  | (n, old) :: rest =>
      if String.eqb n name then (n, data) :: rest
      else (n, old) :: dir_write name data rest
  end.

Fixpoint fs_write (dir name : string) (data : bytes) (files : FileSystem) : option FileSystem :=
  match files with
  | [] => None
  | (d, entries) :: rest =>
      if String.eqb d dir then Some ((d, dir_write name data entries) :: rest)
      else option_map (cons (d, entries)) (fs_write dir name data rest)
  end.

Definition fs_remove (dir : string) (files : FileSystem) : FileSystem :=
  filter (fun entry => negb (String.eqb (fst entry) dir)) files.

Definition enoent (path : string) : Thrown :=
  ErrorObject ("ENOENT: no such file or directory, " ++ path).

(** [mkdtemp(prefix)]: a new, empty directory. *)
Definition mkdtemp (prefix : string) : Action string :=
  fun w =>
    match mkdtemp_pick host prefix (fs w) with
    | Normal dir => (Normal dir, log (Mkdtemp dir) (mkWorld ((dir, []) :: fs w) (trace w) (response w)))
    | Abrupt e => (Abrupt e, w)
    end.

Definition writeFile (dir name : string) (data : bytes) : Action unit :=
  fun w =>
    let w' := log (WriteFile dir name) w in
    match writeFile_fault host dir name with
    | Some e => (Abrupt e, w')
    | None =>
        match fs_write dir name data (fs w) with
        | Some files => (Normal tt, mkWorld files (trace w') (response w'))
        | None => (Abrupt (enoent (path_join dir name)), w')
        end
    end.

Definition execFileAsync (file : string) (args : list string) : Action unit :=
  fun w =>
    let (files, failure) := execFile host file args (fs w) in
    let w' := log (ExecFile file args) (mkWorld files (trace w) (response w)) in
    match failure with
    | Some e => (Abrupt e, w')
    | None => (Normal tt, w')
    end.

Definition readdir (dir : string) : Action (list string) :=
  fun w =>
    match assoc dir (fs w) with
    | Some entries => (Normal (map fst entries), w)
    | None => (Abrupt (enoent dir), w)
    end.

Definition readFile (dir name : string) : Action bytes :=
  fun w =>
    match assoc dir (fs w) with
    | Some entries =>
        match assoc name entries with
        | Some data => (Normal data, w)
        | None => (Abrupt (enoent (path_join dir name)), w)
        end
    | None => (Abrupt (enoent (path_join dir name)), w)
    end.

(** [rm(dir, { recursive: true, force: true })] *)
Definition rm (dir : string) : Action unit :=
  fun w =>
    let w' := log (Rm dir) w in
    match rm_fault host dir with
    | Some e => (Abrupt e, w')
    | None => (Normal tt, mkWorld (fs_remove dir (fs w)) (trace w') (response w'))
    end.

Definition load (buffer : bytes) : Action PDFDocument :=
  fun w => (PDFDocument_load host buffer, log Load w).

(** *** Drawing the cover rectangles *)

(** [source.getPage(index)] followed by the use of the page: the page at
    [index] with its position, or the error of a missing page. *)
Definition getPage (source : PDFDocument) (index : float) : Completion (nat * PDFPage) :=
  match to_integer index with
  | Some (Zneg _) | None => Abrupt (noSuchPage host index (getPageCount source))
  | Some z =>
      match nth_error (pages source) (Z.to_nat z) with
      | Some p => Normal (Z.to_nat z, p)
      | None => Abrupt (noSuchPage host index (getPageCount source))
      end
  end.

Fixpoint setPage (l : list PDFPage) (i : nat) (p : PDFPage) : list PDFPage :=
  match l, i with
  | [], _ => []
  | _ :: rest, O => p :: rest
  | q :: rest, S i' => q :: setPage rest i' p
  end.

(** [page.drawRectangle({ x, y, width, height, color })] *)
Definition drawRectangle (p : PDFPage) (x y width height : float) (color : Color) : PDFPage :=
  mkPage (pageWidth p) (pageHeight p) (contents p ++ [Rectangle x y width height color])%list.

(** The body of [redactions.forEach((entry) => ...)] *)
Definition redactEntry (source : PDFDocument) (entry : Redaction) : Completion PDFDocument :=
  let index := (page entry - 1)%float in
  if lt index 0 || ge index (of_nat (getPageCount source)) then Normal source
  else
    cbind (getPage source index) (fun '(i, page) =>
    let width' := pageWidth page in
    let height' := pageHeight page in
    let rectX := (x entry * width')%float in
    let rectWidth := Math_min (width' - rectX)%float (width entry * width')%float in
    let rectHeight := Math_min height' (height entry * height')%float in
    let topOriginY := (y entry * height')%float in
    let rectY := Math_max 0 (height' - topOriginY - rectHeight)%float in
    Normal (mkDocument (setPage (pages source) i
      (drawRectangle page rectX rectY (Math_max 1 rectWidth) (Math_max 1 rectHeight)
         (rgb 0 0 0))))).

Fixpoint forEach_redact (source : PDFDocument) (redactions : list Redaction) : Completion PDFDocument :=
  match redactions with
  | [] => Normal source
  | entry :: rest => cbind (redactEntry source entry) (fun source' => forEach_redact source' rest)
  end.

(** *** Reassembly *)

(** [out.addPage([w, h])] then [page.drawImage(embedded, { x: 0, y: 0, width, height })] *)
Definition imagePage (embedded : PDFImage) : PDFPage :=
  mkPage (imageWidth embedded) (imageHeight embedded)
    [Image embedded 0 0 (imageWidth embedded) (imageHeight embedded)].

Definition addPage (out : PDFDocument) (p : PDFPage) : PDFDocument :=
  mkDocument (pages out ++ [p])%list.

(** [for (const imageName of generated) { ... }] *)
Fixpoint embedImages (tempDir : string) (out : PDFDocument) (generated : list string) : Action PDFDocument :=
  match generated with
  | [] => ret out
  | imageName :: rest =>
      imageBytes <- readFile tempDir imageName ;;
      embedded <- lift (embedJpg host imageBytes) ;;
      embedImages tempDir (addPage out (imagePage embedded)) rest
  end.

(** *** [POST /api/redact-pdf] *)

Record Request : Type := mkRequest {
  file : option bytes;            (* req.file, by its buffer *)
  body_redactions : option string (* req.body.redactions *)
}.

(** [s] between double quotes. *)
Definition quoted (s : string) : string :=
  String (ascii_of_nat 34) (s ++ String (ascii_of_nat 34) EmptyString).

Definition errorMessage (error : Thrown) (fallback : string) : string :=
  match error with
  | ErrorObject message => message
  | OtherValue => fallback
  end.

(** The statements of the [try] block. *)
Definition redactSteps (pdftoppm : string) (req : Request) (redactions : list Redaction)
    (tempDir : string) : Action unit :=
  let stagePath := "stage-redacted.pdf" in
  buffer <- lift (match file req with
                  | Some buffer => Normal buffer
                  | None => Abrupt (ErrorObject "Cannot read properties of undefined (reading 'buffer')")
                  end) ;;
  source <- load buffer ;;
  source <- lift (forEach_redact source redactions) ;;
  writeFile tempDir stagePath (PDFDocument_save host source) ;;;
  let imagePrefix := path_join tempDir "redacted-page" in
  execFileAsync pdftoppm ["-jpeg"; "-r"; "220"; path_join tempDir stagePath; imagePrefix] ;;;
  names <- readdir tempDir ;;
  let generated := generatedImages names in
  if Nat.eqb (List.length generated) 0 then
    respond (json 500 "No rasterized pages were generated for redaction output.")
  else
    out <- embedImages tempDir create generated ;;
    let bytes := PDFDocument_save host out in
    respond (send "application/pdf" ("attachment; filename=" ++ quoted "redacted.pdf") bytes).

Definition redactPdf (req : Request) : Action unit :=
  match resolvePdftoppmBinary with
  | None =>
      respond (json 501 "pdftoppm binary not found. Install poppler-utils or set PDFTOPPM_PATH.")
  | Some pdftoppm =>
      redactions <- lift (parseRedactions (body_redactions req)) ;;
      if negb (match file req with Some _ => true | None => false end)
         || Nat.eqb (List.length redactions) 0 then
        respond (json 400 "file and redactions are required")
      else
        tempDir <- mkdtemp (path_join (os_tmpdir host) "pdf-toolkit-") ;;
        try_catch_finally
          (redactSteps pdftoppm req redactions tempDir)
          (fun error => respond (json 500 (errorMessage error "Redaction failed")))
          (rm tempDir)
  end.

End Server.

(** ** The rule of the data model, in the specification's words

    [{page: integer >= 1, x in [0,1], y in [0,1], width in (0,1],
    height in (0,1]}], all five fields finite numbers. *)
Definition RedactionRule_valid (entry : Redaction) : bool :=
  Number_isFinite (page entry) && Number_isFinite (x entry) && Number_isFinite (y entry)
  && Number_isFinite (width entry) && Number_isFinite (height entry)
  && is_integer (page entry) && ge (page entry) 1
  && ge (x entry) 0 && ge 1 (x entry)
  && ge (y entry) 0 && ge 1 (y entry)
  && gt (width entry) 0 && ge 1 (width entry)
  && gt (height entry) 0 && ge 1 (height entry).

(** The cover rectangle, in the specification's words: [rectX = x*pageWidth],
    [rectWidth = min(pageWidth - rectX, width*pageWidth)],
    [rectHeight = min(pageHeight, height*pageHeight)],
    [rectY = max(0, pageHeight - y*pageHeight - rectHeight)], drawn black
    at [(rectX, rectY)] with size [(max(1, rectWidth), max(1, rectHeight))]. *)
Definition coverRectangle (pageWidth pageHeight : float) (rule : Redaction) : ContentOp :=
  let rectX := (x rule * pageWidth)%float in
  let rectWidth := Math_min (pageWidth - rectX)%float (width rule * pageWidth)%float in
  let rectHeight := Math_min pageHeight (height rule * pageHeight)%float in
  let rectY := Math_max 0 (pageHeight - y rule * pageHeight - rectHeight)%float in
  Rectangle rectX rectY (Math_max 1 rectWidth) (Math_max 1 rectHeight) (rgb 0 0 0).

(** The guard of the [forEach] callback: the rule's page is not a page
    of the document. *)
Definition pageOutOfRange (source : PDFDocument) (entry : Redaction) : bool :=
  let index := (page entry - 1)%float in
  lt index 0 || ge index (of_nat (getPageCount source)).

(** ** Vocabulary of the statements *)

(** An event other than the creation or removal of a directory. *)
Definition inner (e : Event) : Prop :=
  match e with
  | Mkdtemp _ | Rm _ => False
  | _ => True
  end.

(** [m] only adds [inner] events to the trace. *)
Definition quiet {A} (m : Action A) : Prop :=
  forall w o w', m w = (o, w') ->
    exists events, trace w' = (trace w ++ events)%list /\ Forall inner events.

(** The image [embedJpg] makes of the entry [name] of a directory. *)
Definition imageOf (host : Host) (entries : Dir) (name : string) (img : PDFImage) : Prop :=
  exists data, assoc name entries = Some data /\ embedJpg host data = Normal img.

(** The outcome of the [try] block, by cases: it threw before answering,
    it answered 500 for want of images, or it sent a document assembled
    from the images found in the temporary directory after the
    rasterizer ran on the staged document. *)
Inductive StepsOutcome (host : Host) (bin : string) (req : Request)
    (redactions : list Redaction) (tempDir : string) (w w' : World)
    : Completion unit -> Prop :=
| steps_threw (e : Thrown) :
    response w' = response w ->
    StepsOutcome host bin req redactions tempDir w w' (Abrupt e)
| steps_no_images :
    response w' = Some (json 500 "No rasterized pages were generated for redaction output.") ->
    StepsOutcome host bin req redactions tempDir w w' (Normal tt)
| steps_sent (buffer : bytes) (source staged : PDFDocument) (files0 files1 : FileSystem)
    (entries : Dir) (images : list PDFImage) :
    file req = Some buffer ->
    PDFDocument_load host buffer = Normal source ->
    forEach_redact host source redactions = Normal staged ->
    fs_write tempDir "stage-redacted.pdf" (PDFDocument_save host staged) (fs w) = Some files0 ->
    execFile host bin ["-jpeg"; "-r"; "220"; path_join tempDir "stage-redacted.pdf";
                       path_join tempDir "redacted-page"] files0 = (files1, None) ->
    assoc tempDir files1 = Some entries ->
    Forall2 (imageOf host entries) (generatedImages (map fst entries)) images ->
    response w'
    = Some (send "application/pdf" ("attachment; filename=" ++ quoted "redacted.pdf")
              (PDFDocument_save host (mkDocument (map imagePage images)))) ->
    StepsOutcome host bin req redactions tempDir w w' (Normal tt).

(** The facts behind a 200 answer of the handler started in world [w]. *)
Inductive Sent (host : Host) (req : Request) (w : World) (r : Response) : Prop :=
| sent_intro (bin : string) (redactions : list Redaction) (tempDir : string) (buffer : bytes)
    (source staged : PDFDocument) (files1 : FileSystem) (entries : Dir)
    (images : list PDFImage) :
    resolvePdftoppmBinary host = Some bin ->
    parseRedactions host (body_redactions req) = Normal redactions ->
    file req = Some buffer ->
    PDFDocument_load host buffer = Normal source ->
    forEach_redact host source redactions = Normal staged ->
    execFile host bin ["-jpeg"; "-r"; "220"; path_join tempDir "stage-redacted.pdf";
                       path_join tempDir "redacted-page"]
      ((tempDir, [("stage-redacted.pdf", PDFDocument_save host staged)]) :: fs w)
    = (files1, None) ->
    assoc tempDir files1 = Some entries ->
    Forall2 (imageOf host entries) (generatedImages (map fst entries)) images ->
    r = send "application/pdf" ("attachment; filename=" ++ quoted "redacted.pdf")
          (PDFDocument_save host (mkDocument (map imagePage images))) ->
    Sent host req w r.

(** The assumption on the rasterizer, that is on the program
    [resolvePdftoppmBinary] finds: run on a directory that holds just
    the staged document, and exiting normally, it leaves exactly one
    [redacted-page-<n>.jpg] per page of that document. *)
Definition oneImagePerPage (host : Host) : Prop :=
  forall (bin tempDir : string) (staged : PDFDocument) (files files1 : FileSystem)
         (entries : Dir),
    resolvePdftoppmBinary host = Some bin ->
    execFile host bin ["-jpeg"; "-r"; "220"; path_join tempDir "stage-redacted.pdf";
                       path_join tempDir "redacted-page"]
      ((tempDir, [("stage-redacted.pdf", PDFDocument_save host staged)]) :: files)
    = (files1, None) ->
    assoc tempDir files1 = Some entries ->
    List.length (filter isRedactedPageJpg (map fst entries)) = getPageCount staged.

(** ** A sample host

    A machine with [/usr/bin/pdftoppm] installed, on which every loaded
    file is a document of US Letter pages (one per byte of the upload),
    and whose rasterizer writes one 1870x2420 JPEG per page, page 10
    first, and gives up on documents of more than ten pages. *)
Module Sample.

Definition letterPage : PDFPage := mkPage 612 792 [SourceContent "confidential"].

Definition jpegNames : list string :=
  ["redacted-page-10.jpg"; "redacted-page-01.jpg"; "redacted-page-02.jpg";
   "redacted-page-03.jpg"; "redacted-page-04.jpg"; "redacted-page-05.jpg";
   "redacted-page-06.jpg"; "redacted-page-07.jpg"; "redacted-page-08.jpg";
   "redacted-page-09.jpg"].

Definition tooLong (entries : Dir) : bool :=
  match assoc "stage-redacted.pdf" entries with
  | Some staged => (10 <? List.length staged)%nat
  | None => false
  end.

Definition rasterize (entries : Dir) : Dir :=
  match assoc "stage-redacted.pdf" entries with
  | Some staged =>
      (entries ++ map (fun name => (name, staged)) (firstn (List.length staged) (rev jpegNames)))%list
  | None => entries
  end.

(** The text of the form field: one rule on page 1, and one on page 7. *)
Definition oneRule : string :=
  "[{" ++ quoted "page" ++ ":1," ++ quoted "x" ++ ":0.1," ++ quoted "y" ++ ":0.2,"
       ++ quoted "width" ++ ":0.6," ++ quoted "height" ++ ":0.1}]".
Definition farRule : string :=
  "[{" ++ quoted "page" ++ ":7," ++ quoted "x" ++ ":0," ++ quoted "y" ++ ":0,"
       ++ quoted "width" ++ ":1," ++ quoted "height" ++ ":1}]".
Definition bothRules : string :=
  "[{" ++ quoted "page" ++ ":1," ++ quoted "x" ++ ":0.1," ++ quoted "y" ++ ":0.2,"
       ++ quoted "width" ++ ":0.6," ++ quoted "height" ++ ":0.1},{"
       ++ quoted "page" ++ ":7," ++ quoted "x" ++ ":0," ++ quoted "y" ++ ":0,"
       ++ quoted "width" ++ ":1," ++ quoted "height" ++ ":1}]".

Definition rule (page x y width height : float) : Json :=
  JObject [("page", JNumber page); ("x", JNumber x); ("y", JNumber y);
           ("width", JNumber width); ("height", JNumber height)].

Definition parse (text : string) : option Json :=
  if String.eqb text "[]" then Some (JArray [])
  else if String.eqb text "[null]" then Some (JArray [JNull])
  else if String.eqb text oneRule then Some (JArray [rule 1 0.1 0.2 0.6 0.1])
  else if String.eqb text farRule then Some (JArray [rule 7 0 0 1 1])
  else if String.eqb text bothRules then Some (JArray [rule 1 0.1 0.2 0.6 0.1; rule 7 0 0 1 1])
  else None.

Definition host (installed : bool) : Host :=
  {| env_QPDF_PATH := None;
     env_LIBREOFFICE_PATH := None;
     env_PDFTOPPM_PATH := None;
     access_X_OK := fun candidate => installed && String.eqb candidate "/usr/bin/pdftoppm";
     os_tmpdir := "/tmp";
     mkdtemp_pick := fun prefix _ => Normal (prefix ++ "Ab3xYz");
     writeFile_fault := fun _ _ => None;
     rm_fault := fun _ => None;
     execFile := fun _ _ files =>
       (map (fun '(dir, entries) => (dir, rasterize entries)) files,
        if existsb (fun '(_, entries) => tooLong entries) files
        then Some (ErrorObject "Command failed") else None);
     JSON_parse := parse;
     StringToNumber := fun _ => PrimFloat.nan;
     ObjectToNumber := fun _ => Normal PrimFloat.nan;
     PDFDocument_load := fun buffer => Normal (mkDocument (map (fun _ => letterPage) buffer));
     PDFDocument_save := fun doc => map (fun _ => Byte.x25) (pages doc);
     noSuchPage := fun _ _ => ErrorObject "Cannot read properties of undefined (reading 'getSize')";
     embedJpg := fun data => Normal (mkImage data 1870 2420) |}.

Definition idle : World := mkWorld [] [] None.

Definition upload (pageCount : nat) (rules : string) : Request :=
  mkRequest (Some (repeat Byte.x25 pageCount)) (Some rules).

End Sample.

(** ** The rest of the server: strings

    A string is the sequence of its code units; the functions below are
    the JavaScript ones on strings whose code units are below 256. *)

Module Text.

(** White space and line terminators, as [trim] understands them. *)
Definition isWhiteSpace (c : ascii) : bool :=
  existsb (Nat.eqb (nat_of_ascii c)) [9; 10; 11; 12; 13; 32; 160]%nat.

Fixpoint trimStart (s : string) : string :=
  match s with
  | String c s' => if isWhiteSpace c then trimStart s' else s
  | EmptyString => EmptyString
  end.

Fixpoint trimEnd (s : string) : string :=
  match s with
  | String c s' =>
      match trimEnd s' with
      | EmptyString => if isWhiteSpace c then EmptyString else String c EmptyString
      | rest => String c rest
      end
  | EmptyString => EmptyString
  end.

(** [s.trim()] *)
Definition trim (s : string) : string := trimEnd (trimStart s).

(** [s.split(separator)] for a one-character separator: the empty
    string splits into one empty piece. *)
Fixpoint split (separator : ascii) (s : string) : list string :=
  match s with
  | EmptyString => [EmptyString]
  | String c s' =>
      if Ascii.eqb c separator then EmptyString :: split separator s'
      else match split separator s' with
           | piece :: pieces => String c piece :: pieces
           | [] => [String c EmptyString]
           end
  end.

Fixpoint mapChars (f : ascii -> ascii) (s : string) : string :=
  match s with
  | String c s' => String (f c) (mapChars f s')
  | EmptyString => EmptyString
  end.

Definition lowerChar (c : ascii) : ascii :=
  let n := nat_of_ascii c in
  if ((65 <=? n) && (n <=? 90) || (192 <=? n) && (n <=? 222) && negb (n =? 215))%nat
  then ascii_of_nat (n + 32) else c.

(** [s.toLowerCase()] *)
Definition toLowerCase (s : string) : string := mapChars lowerChar s.

(** [s.includes(c)] for a character [c]. *)
Fixpoint includesChar (c : ascii) (s : string) : bool :=
  match s with
  | String d s' => Ascii.eqb d c || includesChar c s'
  | EmptyString => false
  end.

(** [s.startsWith(c)] for a character [c]. *)
Definition startsWithChar (c : ascii) (s : string) : bool :=
  match s with
  | String d _ => Ascii.eqb d c
  | EmptyString => false
  end.

(** [s.slice(0, s.lastIndexOf(c))] when [s] includes [c], else nothing. *)
Fixpoint beforeLast (c : ascii) (s : string) : option string :=
  match s with
  | EmptyString => None
  | String d s' =>
      match beforeLast c s' with
      | Some prefix => Some (String d prefix)
      | None => if Ascii.eqb d c then Some EmptyString else None
      end
  end.

(** [s.replace(/\/$/, '')]: one slash at the very end is removed. *)
Fixpoint dropFinalSlash (s : string) : string :=
  match s with
  | EmptyString => EmptyString
  | String c EmptyString => if Ascii.eqb c "/" then EmptyString else s
  | String c s' => String c (dropFinalSlash s')
  end.

(** [value || fallback] for a string that may be missing. *)
Definition orElse (value : option string) (fallback : string) : string :=
  match value with
  | Some s => if String.eqb s "" then fallback else s
  | None => fallback
  end.

End Text.
Export Text.

(** ** The rest of the server: CORS, upload names, the pass-through tools *)

(** [allowedOrigins], from [process.env.FRONTEND_ORIGIN]. *)
Definition allowedOrigins (FRONTEND_ORIGIN : option string) : list string :=
  filter (fun value => negb (String.eqb value ""))
    (map trim (split "," (orElse FRONTEND_ORIGIN ""))).

(** The [origin] callback of the [cors] middleware: [callback(null, true)]
    or [callback(new Error(...))]. *)
Definition corsOrigin (allowed : list string) (origin : option string) : Completion bool :=
  let absent := match origin with Some o => String.eqb o "" | None => true end in
  let includes := match origin with Some o => existsb (String.eqb o) allowed | None => false end in
  if absent || Nat.eqb (List.length allowed) 0 || includes
  then Normal true
  else Abrupt (ErrorObject "CORS origin not allowed").

(** The class [[a-zA-Z0-9._-]]. *)
Definition isBasenameChar (c : ascii) : bool :=
  let n := nat_of_ascii c in
  ((97 <=? n) && (n <=? 122) || (65 <=? n) && (n <=? 90) || (48 <=? n) && (n <=? 57)
   || (n =? 46) || (n =? 95) || (n =? 45))%nat.

(** [sanitizeBasename(name)] *)
Definition sanitizeBasename (name : option string) : string :=
  mapChars (fun c => if isBasenameChar c then c else "_"%char) (orElse name "file").

(** [req.file] of multer, and the form fields the tools read. *)
Record Upload : Type := mkUpload {
  originalname : option string;
  buffer : bytes
}.

Record ToolRequest : Type := mkToolRequest {
  upload : option Upload;          (* req.file *)
  body_password : option string;   (* req.body.password *)
  body_target : option string      (* req.body.target *)
}.

(** [path.join(dir, name)] names the directory itself or its parent. *)
Definition isDotName (name : string) : bool :=
  String.eqb name "." || String.eqb name "..".

(** [name] cannot be an entry of a directory: it has a separator or a
    NUL in it. *)
Definition isForeignName (name : string) : bool :=
  includesChar "/" name || includesChar "000" name.


Section Tools.

Variable host : Host.

(** The error of opening a directory as a file. *)
Variable notAFile : string -> Thrown.

(** What reading a path that is not an entry of the temporary
    directory gives. *)
Variable readElsewhere : string -> FileSystem -> Completion bytes.

Notation "x <- m ;; k" := (bind m (fun x => k))
  (at level 61, m at next level, right associativity).
Notation "m ;;; k" := (bind m (fun _ => k))
  (at level 61, right associativity).

(** [writeFile(path.join(dir, name), data)] for a sanitized [name]. *)
Definition writeUpload (dir name : string) (data : bytes) : Action unit :=
  if isDotName name
  then fun w => (Abrupt (notAFile (path_join dir name)), log (WriteFile dir name) w)
  else writeFile host dir name data.

(** [readFile(path.join(dir, name))] *)
Definition readOutput (dir name : string) : Action bytes :=
  if isDotName name then lift (Abrupt (notAFile (path_join dir name)))
  else if isForeignName name then fun w => (readElsewhere (path_join dir name) (fs w), w)
  else readFile dir name.

Definition theUpload (req : ToolRequest) : Action Upload :=
  lift (match upload req with
        | Some u => Normal u
        | None => Abrupt (ErrorObject "Cannot read properties of undefined (reading 'originalname')")
        end).

Definition hasUpload (req : ToolRequest) : bool :=
  match upload req with Some _ => true | None => false end.

(** *** [POST /api/protect-pdf] *)

Definition protectSteps (qpdf password : string) (req : ToolRequest) (tempDir : string)
    : Action unit :=
  u <- theUpload req ;;
  let inputPath := sanitizeBasename (Some (orElse (originalname u) "input.pdf")) in
  let outputPath := "protected.pdf" in
  writeUpload tempDir inputPath (buffer u) ;;;
  execFileAsync host qpdf
    ["--encrypt"; password; password; "256"; "--";
     path_join tempDir inputPath; path_join tempDir outputPath] ;;;
  out <- readFile tempDir outputPath ;;
  respond (send "application/pdf" ("attachment; filename=" ++ quoted "protected.pdf") out).

Definition protectPdf (req : ToolRequest) : Action unit :=
  match resolveQpdfBinary host with
  | None => respond (json 501 "qpdf binary not found. Set QPDF_PATH or install qpdf.")
  | Some qpdf =>
      let password := orElse (body_password req) "" in
      if negb (hasUpload req) || String.eqb password "" then
        respond (json 400 "file and password are required")
      else
        tempDir <- mkdtemp host (path_join (os_tmpdir host) "pdf-toolkit-") ;;
        try_catch_finally
          (protectSteps qpdf password req tempDir)
          (fun error => respond (json 500 (errorMessage error "Protection failed")))
          (rm host tempDir)
  end.

(** *** [POST /api/unlock-pdf] *)

Definition unlockSteps (qpdf password : string) (req : ToolRequest) (tempDir : string)
    : Action unit :=
  u <- theUpload req ;;
  let inputPath := sanitizeBasename (Some (orElse (originalname u) "input.pdf")) in
  let outputPath := "unlocked.pdf" in
  writeUpload tempDir inputPath (buffer u) ;;;
  let args :=
    if String.eqb password ""
    then ["--decrypt"; path_join tempDir inputPath; path_join tempDir outputPath]
    else ["--password=" ++ password; "--decrypt";
          path_join tempDir inputPath; path_join tempDir outputPath] in
  execFileAsync host qpdf args ;;;
  out <- readFile tempDir outputPath ;;
  respond (send "application/pdf" ("attachment; filename=" ++ quoted "unlocked.pdf") out).

Definition unlockPdf (req : ToolRequest) : Action unit :=
  match resolveQpdfBinary host with
  | None => respond (json 501 "qpdf binary not found. Set QPDF_PATH or install qpdf.")
  | Some qpdf =>
      let password := orElse (body_password req) "" in
      if negb (hasUpload req) then
        respond (json 400 "file is required")
      else
        tempDir <- mkdtemp host (path_join (os_tmpdir host) "pdf-toolkit-") ;;
        try_catch_finally
          (unlockSteps qpdf password req tempDir)
          (fun error => respond (json 500 (errorMessage error "Unlock failed")))
          (rm host tempDir)
  end.

(** *** [POST /api/repair-pdf] *)

Definition repairSteps (qpdf : string) (req : ToolRequest) (tempDir : string) : Action unit :=
  u <- theUpload req ;;
  let inputPath := sanitizeBasename (Some (orElse (originalname u) "input.pdf")) in
  let outputPath := "repaired.pdf" in
  writeUpload tempDir inputPath (buffer u) ;;;
  execFileAsync host qpdf
    ["--linearize"; path_join tempDir inputPath; path_join tempDir outputPath] ;;;
  out <- readFile tempDir outputPath ;;
  respond (send "application/pdf" ("attachment; filename=" ++ quoted "repaired.pdf") out).

Definition repairPdf (req : ToolRequest) : Action unit :=
  match resolveQpdfBinary host with
  | None => respond (json 501 "qpdf binary not found. Set QPDF_PATH or install qpdf.")
  | Some qpdf =>
      if negb (hasUpload req) then
        respond (json 400 "file is required")
      else
        tempDir <- mkdtemp host (path_join (os_tmpdir host) "pdf-toolkit-") ;;
        try_catch_finally
          (repairSteps qpdf req tempDir)
          (fun error => respond (json 500 (errorMessage error "Repair failed")))
          (rm host tempDir)
  end.

(** *** [POST /api/convert] *)

(** [inputName.includes('.') ? inputName.slice(0, inputName.lastIndexOf('.')) : inputName] *)
Definition baseOf (inputName : string) : string :=
  match beforeLast "." inputName with
  | Some prefix => prefix
  | None => inputName
  end.

Definition convertSteps (soffice target : string) (req : ToolRequest) (tempDir : string)
    : Action unit :=
  u <- theUpload req ;;
  let inputName := sanitizeBasename (Some (orElse (originalname u) "input.bin")) in
  writeUpload tempDir inputName (buffer u) ;;;
  execFileAsync host soffice
    ["--headless"; "--convert-to"; target; "--outdir"; tempDir; path_join tempDir inputName] ;;;
  let base := baseOf inputName in
  let outputName := base ++ "." ++ target in
  out <- readOutput tempDir outputName ;;
  respond (send "application/octet-stream" ("attachment; filename=" ++ quoted outputName) out).

Definition convert (req : ToolRequest) : Action unit :=
  match resolveLibreOfficeBinary host with
  | None =>
      respond (json 501 "LibreOffice binary not found. Set LIBREOFFICE_PATH or install LibreOffice.")
  | Some soffice =>
      let target := toLowerCase (orElse (body_target req) "") in
      if negb (hasUpload req) || String.eqb target "" then
        respond (json 400 "file and target are required")
      else
        tempDir <- mkdtemp host (path_join (os_tmpdir host) "pdf-toolkit-") ;;
        try_catch_finally
          (convertSteps soffice target req tempDir)
          (fun error => respond (json 500 (errorMessage error "Conversion failed")))
          (rm host tempDir)
  end.

(** The [app.post] registrations of the four pass-through tools. *)
Definition toolRoute (path : string) : option (ToolRequest -> Action unit) :=
  if String.eqb path "/api/protect-pdf" then Some protectPdf
  else if String.eqb path "/api/unlock-pdf" then Some unlockPdf
  else if String.eqb path "/api/repair-pdf" then Some repairPdf
  else if String.eqb path "/api/convert" then Some convert
  else None.

End Tools.


(** ** The scope every tool works in

    The statements [const tempDir = await mkdtemp(...); try { body }
    catch (error) { res.status(500).json(...) } finally { await
    rm(tempDir, ...) }] that close each handler. *)
Definition scoped (host : Host) (body : string -> Action unit) (fallback : string)
    : Action unit :=
  bind (mkdtemp host (path_join (os_tmpdir host) "pdf-toolkit-")) (fun tempDir =>
  try_catch_finally (body tempDir)
    (fun error => respond (json 500 (errorMessage error fallback)))
    (rm host tempDir)).

(** The world in which the body of a scope starts. *)
Definition entered (w : World) (tempDir : string) : World :=
  log (Mkdtemp tempDir) (mkWorld ((tempDir, []) :: fs w) (trace w) (response w)).

(** ** The browser side: where requests are sent, and the system check *)

Module Client.

Section ApiBase.

(** [import.meta.env.VITE_API_BASE_URL] *)
Variable VITE_API_BASE_URL : option string.

(** [typeof window !== 'undefined'] *)
Variable hasWindow : bool.

Definition configuredBase : string := trim (orElse VITE_API_BASE_URL "").

Definition normalizeBaseUrl (value : string) : string := dropFinalSlash (trim value).

(** The item of [window.localStorage] under the key
    [pdf-toolkit-api-base-url], if there is one. *)
Definition Storage := option string.

Definition getApiBaseUrl (storage : Storage) : string :=
  if hasWindow then
    match storage with
    | Some stored =>
        if negb (String.eqb stored "") && negb (String.eqb (trim stored) "")
        then normalizeBaseUrl stored
        else normalizeBaseUrl configuredBase
    | None => normalizeBaseUrl configuredBase
    end
  else normalizeBaseUrl configuredBase.

Definition setApiBaseUrl (value : string) (storage : Storage) : Storage :=
  if negb hasWindow then storage
  else
    let normalized := normalizeBaseUrl value in
    if String.eqb normalized "" then None else Some normalized.

Definition apiUrl (storage : Storage) (path : string) : Completion string :=
  if negb (startsWithChar "/" path) then Abrupt (ErrorObject "apiUrl path must start with /")
  else
    let base := getApiBaseUrl storage in
    if String.eqb base "" then Normal path else Normal (base ++ path).

End ApiBase.

(** What the page reads of the body of [GET /api/health]. *)
Record HealthBinaries : Type := mkHealthBinaries {
  hb_qpdf : option bool;
  hb_libreoffice : option bool
}.

Record HealthResponse : Type := mkHealthResponse {
  hr_ok : option bool;
  hr_binaries : option HealthBinaries
}.

Inductive StatusKind : Type := ready | missing | offline.

Record StatusRow : Type := mkStatusRow {
  tool : string;
  dependency : string;
  status : StatusKind
}.

Definition truthy (flag : option bool) : bool :=
  match flag with Some b => b | None => false end.

(** The [rows] of [SystemCheckPage]; [health] is [None] while no answer
    has arrived or after a failed check. *)
Definition rows (health : option HealthResponse) : list StatusRow :=
  let binaries :=
    match health with Some h => hr_binaries h | None => None end in
  let qpdf := truthy (match binaries with Some b => hb_qpdf b | None => None end) in
  let libre := truthy (match binaries with Some b => hb_libreoffice b | None => None end) in
  let apiOnline := truthy (match health with Some h => hr_ok h | None => None end) in
  [ mkStatusRow "Protect PDF" "qpdf"
      (if apiOnline then (if qpdf then ready else missing) else offline);
    mkStatusRow "Unlock PDF" "qpdf"
      (if apiOnline then (if qpdf then ready else missing) else offline);
    mkStatusRow "Repair PDF" "qpdf"
      (if apiOnline then (if qpdf then ready else missing) else offline);
    mkStatusRow "PowerPoint to PDF" "LibreOffice"
      (if apiOnline then (if libre then ready else missing) else offline);
    mkStatusRow "PDF to Word / PowerPoint / Excel" "LibreOffice"
      (if apiOnline then (if libre then ready else missing) else offline);
    mkStatusRow "PDF to Text" "Backend API" (if apiOnline then ready else offline);
    mkStatusRow "OCR PDF" "Backend API" (if apiOnline then ready else offline) ].

(** The body the server sends, as the page reads it after
    [res.json] and [response.json()]. *)
Definition received (h : Health) : HealthResponse :=
  mkHealthResponse (Some (ok h))
    (Some (mkHealthBinaries (Some (qpdf (binaries h))) (Some (libreoffice (binaries h))))).

End Client.

(** ** A second sample host: qpdf and LibreOffice installed

    [qpdf] copies the upload to the output it is asked for, marked with a
    leading byte; [soffice] writes [<base>.<target>] beside the input. *)
Module Office.

Definition lastArg (args : list string) : string := last args "".

(** The entry name of a path below [dir]. *)
Fixpoint afterPrefix (prefix s : string) : option string :=
  match prefix, s with
  | EmptyString, _ => Some s
  | String p prefix', String c s' => if Ascii.eqb p c then afterPrefix prefix' s' else None
  | String _ _, EmptyString => None
  end.

Definition runTool (file : string) (args : list string) (entries : Dir) (dir : string) : Dir :=
  match entries with
  | (input, data) :: _ =>
      if String.eqb file "qpdf" then
        match afterPrefix (dir ++ "/") (lastArg args) with
        | Some output => dir_write output (Byte.x01 :: data) entries
        | None => entries
        end
      else
        dir_write (baseOf input ++ "." ++ nth 2 args "") (Byte.x02 :: data) entries
  | [] => entries
  end.

Definition host : Host :=
  {| env_QPDF_PATH := Some "";
     env_LIBREOFFICE_PATH := Some "/opt/libreoffice/soffice";
     env_PDFTOPPM_PATH := None;
     access_X_OK := fun candidate =>
       String.eqb candidate "qpdf" || String.eqb candidate "/opt/libreoffice/soffice"
       || String.eqb candidate "soffice";
     os_tmpdir := "/tmp";
     mkdtemp_pick := fun prefix _ => Normal (prefix ++ "Qw9rTz");
     writeFile_fault := fun _ _ => None;
     rm_fault := fun _ => None;
     execFile := fun file args files =>
       (map (fun '(dir, entries) => (dir, runTool file args entries dir)) files,
        if existsb (String.eqb "--password=wrong") args
        then Some (ErrorObject "qpdf: invalid password") else None);
     JSON_parse := fun _ => None;
     StringToNumber := fun _ => PrimFloat.nan;
     ObjectToNumber := fun _ => Normal PrimFloat.nan;
     PDFDocument_load := fun _ => Abrupt OtherValue;
     PDFDocument_save := fun _ => [];
     noSuchPage := fun _ _ => OtherValue;
     embedJpg := fun _ => Abrupt OtherValue |}.

Definition notAFile (path : string) : Thrown :=
  ErrorObject "EISDIR: illegal operation on a directory, open".

Definition readElsewhere (path : string) (files : FileSystem) : Completion bytes :=
  Abrupt (enoent path).

Definition report : Upload := mkUpload (Some "annual report (final).pdf") [Byte.x25; Byte.x50].

End Office.

(** ** Vocabulary of the further statements *)

(** [q] is [p] with black rectangles added after its content. *)
Definition covered (p q : PDFPage) : Prop :=
  pageWidth q = pageWidth p /\ pageHeight q = pageHeight p
  /\ exists rectangles,
       contents q = (contents p ++ rectangles)%list
       /\ Forall (fun op => exists x y w h, op = Rectangle x y w h (rgb 0 0 0)) rectangles.

(** * Properties *)

(** ** The file system *)

Lemma assoc_fs_remove (dir : string) (files : FileSystem) :
  assoc dir (fs_remove dir files) = None.
Proof.
  induction files as [|[d entries] rest IH]; simpl; [reflexivity|].
  destruct (String.eqb d dir) eqn:E; simpl; [exact IH|].
  rewrite String.eqb_sym, E. exact IH.
Qed.

(** ** The health endpoint *)

(** C10: [GET /api/health] answers [ok = true] on every host; whether
    the binaries were found shows only in the [binaries] object, each
    flag being the outcome of that binary's resolution. *)
Theorem health_ok_unconditional (host : Host) :
  ok (health host) = true
  /\ qpdf (binaries (health host)) = Boolean_ (resolveQpdfBinary host)
  /\ libreoffice (binaries (health host)) = Boolean_ (resolveLibreOfficeBinary host)
  /\ pdftoppm (binaries (health host)) = Boolean_ (resolvePdftoppmBinary host).
Proof. unfold health; simpl; repeat split. Qed.

(** ** Rule validation *)

Lemma keepRedaction_spec (entry : Redaction) :
  keepRedaction entry = true <->
  (Number_isFinite (page entry) = true /\ Number_isFinite (x entry) = true
   /\ Number_isFinite (y entry) = true /\ Number_isFinite (width entry) = true
   /\ Number_isFinite (height entry) = true)
  /\ ge (page entry) 1 = true
  /\ ge (x entry) 0 = true /\ ge (y entry) 0 = true
  /\ gt (width entry) 0 = true /\ gt (height entry) 0 = true.
Proof.
  unfold keepRedaction. rewrite !andb_true_iff. tauto.
Qed.

(** C4, as stated, fails: a rule twice as wide as the page is kept by the
    filter although the data model's range for [width] excludes it. *)
Lemma keepRedaction_exceeds_ranges :
  keepRedaction (mkRedaction 1 0 0 2 1) = true
  /\ RedactionRule_valid (mkRedaction 1 0 0 2 1) = false.
Proof. split; reflexivity. Qed.

(** An entry that is [null] is not dropped: reading its [page] throws,
    before the handler's [try], and the request gets no answer from the
    handler. *)
Example parseRedactions_null_entry :
  parseRedactions (Sample.host true) (Some "[null]")
  = Abrupt (ErrorObject "Cannot read properties of null (reading 'page')")
  /\ redactPdf (Sample.host true) (Sample.upload 1 "[null]") Sample.idle
     = (Abrupt (ErrorObject "Cannot read properties of null (reading 'page')"), Sample.idle).
Proof. split; reflexivity. Qed.

(** A rule for page 1.5 passes the filter and then makes the drawing
    loop throw. *)
Example fractional_page_throws :
  keepRedaction (mkRedaction 1.5 0 0 1 1) = true
  /\ redactEntry (Sample.host true) (mkDocument [Sample.letterPage; Sample.letterPage])
       (mkRedaction 1.5 0 0 1 1)
     = Abrupt (ErrorObject "Cannot read properties of undefined (reading 'getSize')").
Proof. split; reflexivity. Qed.

(** C4, amended: when the text is not empty and parses to an array all
    of whose entries convert to numbers without a throw,
    [parseRedactions] completes normally, and an entry with an integer
    page is among the rules it returns exactly when it is one of the
    converted entries with five finite fields, [page >= 1], [x >= 0],
    [y >= 0], [width > 0] and [height > 0]; the filter puts no upper
    bound on [x], [y], [width] or [height]. *)
Theorem parseRedactions_keeps (host : Host) (text : string) (items : list Json)
    (entries : list Redaction) :
  text <> "" ->
  JSON_parse host text = Some (JArray items) ->
  map_throwing (toRedaction host) items = Normal entries ->
  exists kept,
    parseRedactions host (Some text) = Normal kept
    /\ forall entry, is_integer (page entry) = true ->
       (In entry kept <->
        In entry entries
        /\ (Number_isFinite (page entry) = true /\ Number_isFinite (x entry) = true
            /\ Number_isFinite (y entry) = true /\ Number_isFinite (width entry) = true
            /\ Number_isFinite (height entry) = true)
        /\ ge (page entry) 1 = true
        /\ ge (x entry) 0 = true /\ ge (y entry) 0 = true
        /\ gt (width entry) 0 = true /\ gt (height entry) 0 = true).
Proof.
  intros Htext Hparse Hmap.
  exists (filter keepRedaction entries). split.
  - unfold parseRedactions.
    destruct (String.eqb_spec text ""); [contradiction|].
    rewrite Hparse, Hmap. reflexivity.
  - intros entry _. rewrite filter_In, keepRedaction_spec. tauto.
Qed.

Lemma parseRedactions_keeps_witness :
  Sample.bothRules <> ""
  /\ JSON_parse (Sample.host true) Sample.bothRules
     = Some (JArray [Sample.rule 1 0.1 0.2 0.6 0.1; Sample.rule 7 0 0 1 1])
  /\ exists kept,
       parseRedactions (Sample.host true) (Some Sample.bothRules) = Normal kept
       /\ In (mkRedaction 7 0 0 1 1) kept.
Proof.
  split; [discriminate|]. split; [reflexivity|].
  destruct (parseRedactions_keeps (Sample.host true) Sample.bothRules
              [Sample.rule 1 0.1 0.2 0.6 0.1; Sample.rule 7 0 0 1 1]
              [mkRedaction 1 0.1 0.2 0.6 0.1; mkRedaction 7 0 0 1 1])
    as [kept [Hrun Hkept]]; [discriminate|reflexivity|reflexivity|].
  exists kept. split; [exact Hrun|].
  apply (Hkept (mkRedaction 7 0 0 1 1) eq_refl).
  split; [right; left; reflexivity|].
  repeat split; reflexivity.
Defined.

(** ** The cover rectangle *)

Lemma redactEntry_draws (host : Host) (source : PDFDocument) (entry : Redaction)
    (i : nat) (p : PDFPage) :
  pageOutOfRange source entry = false ->
  getPage host source (page entry - 1)%float = Normal (i, p) ->
  redactEntry host source entry
  = Normal (mkDocument (setPage (pages source) i
      (mkPage (pageWidth p) (pageHeight p)
         (contents p ++ [coverRectangle (pageWidth p) (pageHeight p) entry])))).
Proof.
  intros Hrange Hpage. unfold redactEntry.
  unfold pageOutOfRange in Hrange. rewrite Hrange, Hpage. reflexivity.
Qed.

(** C3: a rule whose page is a page of the document makes the handler
    append to that page one black rectangle at [(rectX, rectY)] of size
    [(max(1, rectWidth), max(1, rectHeight))] with
    [rectX = x*pageWidth], [rectWidth = min(pageWidth - rectX, width*pageWidth)],
    [rectHeight = min(pageHeight, height*pageHeight)] and
    [rectY = max(0, pageHeight - y*pageHeight - rectHeight)]; on a
    612x792 page the rule [{page:1, x:0.1, y:0.2, width:0.6, height:0.1}]
    gives [rectX = 61.2], [rectY = 554.4], [rectWidth = 367.2] and
    [rectHeight = 79.2]. *)
Theorem cover_rectangle_formula :
  (forall (host : Host) (source : PDFDocument) (entry : Redaction) (i : nat) (p : PDFPage),
     pageOutOfRange source entry = false ->
     getPage host source (page entry - 1)%float = Normal (i, p) ->
     let pageWidth := pageWidth p in
     let pageHeight := pageHeight p in
     let rectX := (x entry * pageWidth)%float in
     let rectWidth := Math_min (pageWidth - rectX)%float (width entry * pageWidth)%float in
     let rectHeight := Math_min pageHeight (height entry * pageHeight)%float in
     let rectY := Math_max 0 (pageHeight - y entry * pageHeight - rectHeight)%float in
     redactEntry host source entry
     = Normal (mkDocument (setPage (pages source) i
         (mkPage pageWidth pageHeight
            (contents p ++ [Rectangle rectX rectY (Math_max 1 rectWidth)
                              (Math_max 1 rectHeight) (rgb 0 0 0)])))))
  /\ (forall host : Host,
        redactEntry host (mkDocument [mkPage 612 792 []]) (mkRedaction 1 0.1 0.2 0.6 0.1)
        = Normal (mkDocument [mkPage 612 792 [Rectangle 61.2 554.4 367.2 79.2 (rgb 0 0 0)]]))
  /\ (let rectX := (0.1 * 612)%float in
      let rectWidth := Math_min (612 - rectX)%float (0.6 * 612)%float in
      let rectHeight := Math_min 792 (0.1 * 792)%float in
      let rectY := Math_max 0 (792 - 0.2 * 792 - rectHeight)%float in
      rectX = 61.2%float /\ rectHeight = 79.2%float /\ rectY = 554.4%float
      /\ rectWidth = 367.2%float).
Proof.
  split; [|split].
  - intros host source entry i p Hrange Hpage. cbv zeta.
    rewrite (redactEntry_draws host source entry i p Hrange Hpage). reflexivity.
  - intros host. reflexivity.
  - repeat split; reflexivity.
Qed.

Lemma cover_rectangle_formula_witness :
  pageOutOfRange (mkDocument [Sample.letterPage; Sample.letterPage])
    (mkRedaction 2 0.25 0.5 0.5 0.25) = false
  /\ redactEntry (Sample.host true) (mkDocument [Sample.letterPage; Sample.letterPage])
       (mkRedaction 2 0.25 0.5 0.5 0.25)
     = Normal (mkDocument [Sample.letterPage;
         mkPage 612 792 [SourceContent "confidential"; Rectangle 153 198 306 198 (rgb 0 0 0)]]).
Proof.
  split; [reflexivity|].
  exact (proj1 cover_rectangle_formula (Sample.host true)
           (mkDocument [Sample.letterPage; Sample.letterPage])
           (mkRedaction 2 0.25 0.5 0.5 0.25) 1 Sample.letterPage eq_refl eq_refl).
Defined.

(** ** Ordering of the rasterizer's images *)

Section SortByKey.

Context {A : Type} (key : A -> N).

Local Abbreviation compare := (fun a b : A => (Z.of_N (key a) - Z.of_N (key b))%Z).
Local Abbreviation ordered := (fun a b : A => (key a <= key b)%N).

Lemma sort_insert_perm (a : A) (l : list A) :
  Permutation (sort_insert compare a l) (a :: l).
Proof.
  induction l as [|b l IH]; simpl; [reflexivity|].
  destruct (compare a b <=? 0)%Z; [reflexivity|].
  rewrite IH. apply perm_swap.
Qed.

Lemma Array_sort_perm (l : list A) : Permutation (Array_sort compare l) l.
Proof.
  induction l as [|a l IH]; simpl; [reflexivity|].
  rewrite sort_insert_perm. now constructor.
Qed.

Lemma sort_insert_sorted (a : A) (l : list A) :
  StronglySorted ordered l -> StronglySorted ordered (sort_insert compare a l).
Proof.
  induction 1 as [|b l Hs IH Hb]; simpl.
  - repeat constructor.
  - destruct (Z.leb_spec (compare a b) 0) as [Hle|Hgt]; simpl in *.
    + constructor; [now constructor|].
      constructor; [lia|].
      eapply Forall_impl; [|exact Hb]. simpl. intros c Hc. lia.
    + constructor; [exact IH|].
      rewrite (sort_insert_perm a l). constructor; [lia|exact Hb].
Qed.

Lemma Array_sort_sorted (l : list A) : StronglySorted ordered (Array_sort compare l).
Proof.
  induction l as [|a l IH]; simpl; [constructor|].
  now apply sort_insert_sorted.
Qed.

(** The sort is stable: the elements with a given key keep their order. *)
Lemma sort_insert_stable (k : N) (a : A) (l : list A) :
  StronglySorted ordered l ->
  filter (fun c => N.eqb (key c) k) (sort_insert compare a l)
  = filter (fun c => N.eqb (key c) k) (a :: l).
Proof.
  induction 1 as [|b l Hs IH Hb]; [reflexivity|].
  cbn [sort_insert]. destruct (Z.leb_spec (compare a b) 0) as [Hle|Hgt]; [reflexivity|].
  cbn [filter] in *. rewrite IH. simpl in *.
  destruct (N.eqb_spec (key a) k), (N.eqb_spec (key b) k); try reflexivity. lia.
Qed.

Lemma Array_sort_stable (k : N) (l : list A) :
  filter (fun c => N.eqb (key c) k) (Array_sort compare l)
  = filter (fun c => N.eqb (key c) k) l.
Proof.
  induction l as [|a l IH]; [reflexivity|].
  cbn [Array_sort fold_right]. fold (Array_sort compare l).
  rewrite sort_insert_stable by apply Array_sort_sorted.
  cbn [filter]. now rewrite IH.
Qed.

End SortByKey.

(** C6: of the names [readdir] reports, the handler keeps those of the
    form [redacted-page-<digits>.jpg] and orders them by ascending page
    number, names with the same number keeping their directory order;
    [redacted-page-10.jpg] comes after [redacted-page-9.jpg] although it
    precedes it as a string.  Page numbers are taken below 2^53, where a
    JavaScript number is the integer itself. *)
Theorem generatedImages_by_page_number (names : list string) :
  Forall (fun name => (pageNumberOf name < 2 ^ 53)%N) names ->
  Permutation (generatedImages names) (filter isRedactedPageJpg names)
  /\ StronglySorted (fun a b => (pageNumberOf a <= pageNumberOf b)%N) (generatedImages names)
  /\ (forall k, filter (fun name => N.eqb (pageNumberOf name) k) (generatedImages names)
              = filter (fun name => N.eqb (pageNumberOf name) k)
                  (filter isRedactedPageJpg names))
  /\ generatedImages ["redacted-page-10.jpg"; "redacted-page-9.jpg"]
     = ["redacted-page-9.jpg"; "redacted-page-10.jpg"]
  /\ String.ltb "redacted-page-10.jpg" "redacted-page-9.jpg" = true.
Proof.
  intros _. unfold generatedImages, byPageNumber.
  split; [apply (Array_sort_perm pageNumberOf)|].
  split; [apply (Array_sort_sorted pageNumberOf)|].
  split; [intros k; apply (Array_sort_stable pageNumberOf)|].
  split; reflexivity.
Qed.

Lemma generatedImages_by_page_number_witness :
  Forall (fun name => (pageNumberOf name < 2 ^ 53)%N)
    ["redacted-page-10.jpg"; "stage-redacted.pdf"; "redacted-page-9.jpg"; "redacted-page-2.jpg"]
  /\ StronglySorted (fun a b => (pageNumberOf a <= pageNumberOf b)%N)
       ["redacted-page-2.jpg"; "redacted-page-9.jpg"; "redacted-page-10.jpg"].
Proof.
  assert (H : Forall (fun name => (pageNumberOf name < 2 ^ 53)%N)
    ["redacted-page-10.jpg"; "stage-redacted.pdf"; "redacted-page-9.jpg"; "redacted-page-2.jpg"])
    by (repeat constructor).
  split; [exact H|].
  exact (proj1 (proj2 (generatedImages_by_page_number _ H))).
Defined.

(** ** Requests rejected before any work *)

(** C8: when no candidate path of [pdftoppm] is executable the handler
    answers 501 and does nothing else: the file system is as it was and
    no call is added to the trace, so no temporary directory was made. *)
Theorem missing_rasterizer_501 (host : Host) (req : Request) (w : World) :
  resolvePdftoppmBinary host = None ->
  redactPdf host req w
  = (Normal tt,
     mkWorld (fs w) (trace w)
       (Some (json 501 "pdftoppm binary not found. Install poppler-utils or set PDFTOPPM_PATH."))).
Proof.
  intros Hbin. unfold redactPdf. rewrite Hbin. reflexivity.
Qed.

Lemma missing_rasterizer_501_witness :
  resolvePdftoppmBinary (Sample.host false) = None
  /\ redactPdf (Sample.host false) (Sample.upload 3 Sample.oneRule) Sample.idle
     = (Normal tt,
        mkWorld [] []
          (Some (json 501 "pdftoppm binary not found. Install poppler-utils or set PDFTOPPM_PATH."))).
Proof.
  split; [reflexivity|].
  exact (missing_rasterizer_501 (Sample.host false) (Sample.upload 3 Sample.oneRule)
           Sample.idle eq_refl).
Defined.

(** C7, as stated, fails: a request without a file, made on a host
    without the rasterizer, is answered 501 and not 400. *)
Lemma no_file_without_rasterizer_501 :
  file (mkRequest None (Some "[]")) = None
  /\ option_map statusOf
       (response (snd (redactPdf (Sample.host false) (mkRequest None (Some "[]")) Sample.idle)))
     = Some 501.
Proof. split; reflexivity. Qed.

(** C7, amended: on a host where the rasterizer is found, a request
    whose rules [parseRedactions] reads without a throw, and which has
    no file or whose rules are all dropped by the filter (an empty array
    included), is answered 400; the file system is as it was and no call
    is added to the trace: no document was loaded, no temporary
    directory made, no rectangle drawn. *)
Theorem no_work_400 (host : Host) (req : Request) (w : World) (binary : string)
    (redactions : list Redaction) :
  resolvePdftoppmBinary host = Some binary ->
  parseRedactions host (body_redactions req) = Normal redactions ->
  file req = None \/ redactions = [] ->
  redactPdf host req w
  = (Normal tt, mkWorld (fs w) (trace w) (Some (json 400 "file and redactions are required"))).
Proof.
  intros Hbin Hparse Hnone. unfold redactPdf, bind, lift.
  rewrite Hbin, Hparse.
  destruct Hnone as [-> | ->]; [reflexivity|].
  destruct (file req); reflexivity.
Qed.

Lemma no_work_400_witness :
  resolvePdftoppmBinary (Sample.host true) = Some "/usr/bin/pdftoppm"
  /\ parseRedactions (Sample.host true) (Some "[]") = Normal []
  /\ redactPdf (Sample.host true) (Sample.upload 2 "[]") Sample.idle
     = (Normal tt, mkWorld [] [] (Some (json 400 "file and redactions are required"))).
Proof.
  split; [reflexivity|]. split; [reflexivity|].
  exact (no_work_400 (Sample.host true) (Sample.upload 2 "[]") Sample.idle
           "/usr/bin/pdftoppm" [] eq_refl eq_refl (or_intror eq_refl)).
Defined.

(** ** How the handler's steps change the world *)



Lemma quiet_same {A} (m : Action A) :
  (forall w o w', m w = (o, w') -> trace w' = trace w) -> quiet m.
Proof.
  intros H w o w' Hm. exists []. rewrite app_nil_r. split; [eauto|constructor].
Qed.

Lemma quiet_bind {A B} (m : Action A) (k : A -> Action B) :
  quiet m -> (forall a, quiet (k a)) -> quiet (bind m k).
Proof.
  intros Hm Hk w o w' H. unfold bind in H.
  destruct (m w) as [[a|e] w1] eqn:E.
  - destruct (Hm _ _ _ E) as [ev1 [T1 F1]].
    destruct (Hk a _ _ _ H) as [ev2 [T2 F2]].
    exists (ev1 ++ ev2)%list. rewrite T2, T1, app_assoc. split; [reflexivity|].
    apply Forall_app; now split.
  - injection H as <- <-. eauto.
Qed.

Lemma quiet_ret {A} (a : A) : quiet (ret a).
Proof. apply quiet_same. intros w o w' H. now injection H as <- <-. Qed.

Lemma quiet_lift {A} (c : Completion A) : quiet (lift c).
Proof. apply quiet_same. intros w o w' H. now injection H as <- <-. Qed.

Lemma quiet_respond (r : Response) : quiet (respond r).
Proof. apply quiet_same. intros w o w' H. now injection H as <- <-. Qed.

Lemma quiet_one {A} (m : Action A) (e : Event) :
  inner e ->
  (forall w o w', m w = (o, w') -> trace w' = (trace w ++ [e])%list) -> quiet m.
Proof.
  intros He H w o w' Hm. exists [e]. split; [eauto|now constructor].
Qed.

Section Quiet.
Variable host : Host.

Lemma quiet_load buffer : quiet (load host buffer).
Proof.
  apply (quiet_one _ Load I). intros w o w' H. unfold load in H. now injection H as <- <-.
Qed.

Lemma quiet_writeFile dir name data : quiet (writeFile host dir name data).
Proof.
  apply (quiet_one _ (WriteFile dir name) I). intros w o w' H. unfold writeFile in H.
  destruct (writeFile_fault host dir name); [now injection H as <- <-|].
  destruct (fs_write dir name data (fs w)); now injection H as <- <-.
Qed.

Lemma quiet_execFileAsync bin args : quiet (execFileAsync host bin args).
Proof.
  apply (quiet_one _ (ExecFile bin args) I). intros w o w' H. unfold execFileAsync in H.
  destruct (execFile host bin args (fs w)) as [files [e|]]; now injection H as <- <-.
Qed.

Lemma quiet_readdir dir : quiet (readdir dir).
Proof.
  apply quiet_same. intros w o w' H. unfold readdir in H.
  destruct (assoc dir (fs w)); now injection H as <- <-.
Qed.

Lemma quiet_readFile dir name : quiet (readFile dir name).
Proof.
  apply quiet_same. intros w o w' H. unfold readFile in H.
  destruct (assoc dir (fs w)) as [entries|]; [destruct (assoc name entries)|];
    now injection H as <- <-.
Qed.

Lemma quiet_embedImages tempDir generated : forall out, quiet (embedImages host tempDir out generated).
Proof.
  induction generated as [|name rest IH]; intros out; simpl.
  - apply quiet_ret.
  - apply quiet_bind; [apply quiet_readFile|]. intros data.
    apply quiet_bind; [apply quiet_lift|]. intros img. apply IH.
Qed.

Lemma quiet_redactSteps bin req redactions tempDir :
  quiet (redactSteps host bin req redactions tempDir).
Proof.
  unfold redactSteps.
  apply quiet_bind; [apply quiet_lift|]. intros buffer.
  apply quiet_bind; [apply quiet_load|]. intros source.
  apply quiet_bind; [apply quiet_lift|]. intros staged.
  apply quiet_bind; [apply quiet_writeFile|]. intros _.
  apply quiet_bind; [apply quiet_execFileAsync|]. intros _.
  apply quiet_bind; [apply quiet_readdir|]. intros names.
  destruct (Nat.eqb _ 0); [apply quiet_respond|].
  apply quiet_bind; [apply quiet_embedImages|]. intros out. apply quiet_respond.
Qed.

End Quiet.


(** ** Cleanup of the temporary directory *)

(** C9: whenever the handler gets as far as creating its temporary
    directory, the calls it makes from then on are the creation, steps
    that neither create nor remove a directory, and last the removal of
    that directory: this holds whether the steps sent the PDF, sent an
    error, or threw.  Unless the removal itself fails, the directory is
    not in the file system when the handler completes. *)
Theorem temp_dir_removed (host : Host) (req : Request) (w w' : World)
    (o : Completion unit) (dir : string) (events : list Event) :
  redactPdf host req w = (o, w') ->
  trace w' = (trace w ++ events)%list ->
  In (Mkdtemp dir) events ->
  (exists steps, events = (Mkdtemp dir :: steps ++ [Rm dir])%list /\ Forall inner steps)
  /\ (rm_fault host dir = None -> assoc dir (fs w') = None).
Proof.
  intros Hrun Htrace Hin. unfold redactPdf in Hrun.
  assert (Hnone : trace w' = trace w -> False).
  { intros E. rewrite E in Htrace. rewrite <- (app_nil_r (trace w)) in Htrace at 1.
    apply app_inv_head in Htrace. subst events. contradiction. }
  destruct (resolvePdftoppmBinary host) as [bin|];
    [|injection Hrun as <- <-; now destruct Hnone].
  unfold bind at 1, lift in Hrun.
  destruct (parseRedactions host (body_redactions req)) as [redactions|e];
    [|injection Hrun as <- <-; now destruct Hnone].
  destruct (negb _ || _); [injection Hrun as <- <-; now destruct Hnone|].
  unfold bind, mkdtemp in Hrun.
  destruct (mkdtemp_pick host _ (fs w)) as [tempDir|e];
    [|injection Hrun as <- <-; now destruct Hnone].
  unfold try_catch_finally in Hrun.
  set (w1 := log (Mkdtemp tempDir) _) in Hrun.
  assert (Hmid : exists result w2 steps,
             trace w2 = (trace w1 ++ steps)%list /\ Forall inner steps
             /\ match rm host tempDir w2 with
                | (Normal _, w3) => (result, w3)
                | (Abrupt e, w3) => (Abrupt e, w3)
                end = (o, w')).
  { destruct (redactSteps host bin req redactions tempDir w1) as [[[]|e] w2] eqn:Esteps;
      destruct (quiet_redactSteps host bin req redactions tempDir _ _ _ Esteps)
        as [steps [T F]].
    - exists (Normal tt), w2, steps. auto.
    - simpl in Hrun. eexists _, _, steps. split; [|split; [exact F|exact Hrun]].
      exact T. }
  destruct Hmid as [result [w2 [steps [T [F Hrm]]]]].
  assert (Hw' : trace w' = (trace w ++ Mkdtemp tempDir :: steps ++ [Rm tempDir])%list
                /\ (rm_fault host tempDir = None -> fs w' = fs_remove tempDir (fs w2))).
  { unfold rm in Hrm. destruct (rm_fault host tempDir) as [e|].
    - injection Hrm as <- <-. simpl. rewrite T. subst w1. simpl.
      rewrite <- !app_assoc. split; [reflexivity|discriminate].
    - injection Hrm as <- <-. simpl. rewrite T. subst w1. simpl.
      rewrite <- !app_assoc. split; reflexivity. }
  destruct Hw' as [Htrace' Hfs]. rewrite Htrace' in Htrace.
  apply app_inv_head in Htrace. subst events.
  assert (dir = tempDir) as ->.
  { destruct Hin as [E|Hin]; [now injection E|].
    apply in_app_or in Hin. destruct Hin as [Hin|[E|[]]]; [|discriminate].
    rewrite Forall_forall in F. destruct (F _ Hin). }
  split; [now exists steps|].
  intros Hok. rewrite (Hfs Hok). apply assoc_fs_remove.
Qed.


(** ** What a successful response is made of *)


Lemma embedImages_inv (host : Host) (tempDir : string) (generated : list string) :
  forall (out : PDFDocument) (w w' : World) (o : Completion PDFDocument),
  embedImages host tempDir out generated w = (o, w') ->
  w' = w
  /\ match o with
     | Normal out' =>
         exists entries images,
           (generated <> [] -> assoc tempDir (fs w) = Some entries)
           /\ Forall2 (imageOf host entries) generated images
           /\ pages out' = (pages out ++ map imagePage images)%list
     | Abrupt _ => True
     end.
Proof.
  induction generated as [|name rest IH]; intros out w w' o H; simpl in H.
  - injection H as <- <-. split; [reflexivity|].
    exists [], []. rewrite app_nil_r. repeat split; [congruence|constructor].
  - unfold bind, readFile, lift in H.
    destruct (assoc tempDir (fs w)) as [entries|] eqn:Edir;
      [|injection H as <- <-; now split].
    destruct (assoc name entries) as [data|] eqn:Edata;
      [|injection H as <- <-; now split].
    destruct (embedJpg host data) as [img|e] eqn:Eimg;
      [|injection H as <- <-; now split].
    destruct (IH _ _ _ _ H) as [-> Ho]. split; [reflexivity|].
    destruct o as [out'|]; [|exact I].
    destruct Ho as [entries' [images [Hdir [Himgs Hpages]]]].
    exists entries, (img :: images). split; [auto|]. split.
    + constructor; [now exists data|].
      destruct rest as [|name' rest'].
      * inversion Himgs. constructor.
      * rewrite Edir in Hdir. assert (Some entries = Some entries') as E by (apply Hdir; discriminate).
        injection E as <-. exact Himgs.
    + rewrite Hpages. simpl. now rewrite <- app_assoc.
Qed.


Lemma redactSteps_outcome (host : Host) (bin : string) (req : Request)
    (redactions : list Redaction) (tempDir : string) (w w' : World) (o : Completion unit) :
  redactSteps host bin req redactions tempDir w = (o, w') ->
  StepsOutcome host bin req redactions tempDir w w' o.
Proof.
  unfold redactSteps. intros H. unfold bind at 1, lift in H.
  destruct (file req) as [buffer|] eqn:Efile;
    [|injection H as <- <-; now constructor].
  unfold bind at 1, load in H.
  destruct (PDFDocument_load host buffer) as [source|e] eqn:Eload;
    [|injection H as <- <-; now constructor].
  unfold bind at 1, lift in H.
  destruct (forEach_redact host source redactions) as [staged|e] eqn:Edraw;
    [|injection H as <- <-; now constructor].
  unfold bind at 1, writeFile in H. cbn [fs log trace response] in H.
  destruct (writeFile_fault host tempDir "stage-redacted.pdf");
    [injection H as <- <-; now constructor|].
  destruct (fs_write tempDir "stage-redacted.pdf" (PDFDocument_save host staged) (fs w))
    as [files0|] eqn:Ewrite; [|injection H as <- <-; now constructor].
  unfold bind at 1, execFileAsync in H. cbn [fs log trace response] in H.
  destruct (execFile host bin _ files0) as [files1 [e|]] eqn:Eexec;
    [injection H as <- <-; now constructor|].
  unfold bind at 1, readdir in H. cbn [fs log trace response] in H.
  destruct (assoc tempDir files1) as [entries|] eqn:Edir;
    [|injection H as <- <-; now constructor].
  destruct (Nat.eqb _ 0) eqn:Eempty.
  - injection H as <- <-. now apply steps_no_images.
  - unfold bind in H.
    match type of H with
    | match ?m with _ => _ end = _ => destruct m as [[out|e] w2] eqn:Eembed
    end.
    + destruct (embedImages_inv _ _ _ _ _ _ _ Eembed)
        as [-> [entries' [images [Hdir [Himgs Hpages]]]]].
      injection H as <- <-.
      cbn [fs log] in Hdir. rewrite Edir in Hdir.
      assert (Some entries = Some entries') as E.
      { apply Hdir. intros E. rewrite E in Eempty. discriminate. }
      injection E as <-.
      eapply steps_sent; eauto.
      cbn [response]. destruct out as [ps]. simpl in Hpages. now subst ps.
    + destruct (embedImages_inv _ _ _ _ _ _ _ Eembed) as [-> _].
      injection H as <- <-. now constructor.
Qed.


Lemma rm_response (host : Host) (dir : string) (w w' : World) (o : Completion unit) :
  rm host dir w = (o, w') -> response w' = response w.
Proof.
  unfold rm. destruct (rm_fault host dir); intros H; now injection H as <- <-.
Qed.

Lemma redactPdf_sent (host : Host) (req : Request) (w w' : World) (o : Completion unit)
    (r : Response) :
  response w = None ->
  redactPdf host req w = (o, w') ->
  response w' = Some r ->
  statusOf r = 200 ->
  Sent host req w r.
Proof.
  intros Hfresh Hrun Hr H200. unfold redactPdf in Hrun.
  destruct (resolvePdftoppmBinary host) as [bin|] eqn:Ebin.
  2:{ injection Hrun as <- <-. simpl in Hr. injection Hr as <-. discriminate. }
  unfold bind at 1, lift in Hrun.
  destruct (parseRedactions host (body_redactions req)) as [redactions|e] eqn:Eparse.
  2:{ injection Hrun as <- <-. congruence. }
  destruct (negb _ || _).
  { injection Hrun as <- <-. simpl in Hr. injection Hr as <-. discriminate. }
  unfold bind, mkdtemp in Hrun.
  destruct (mkdtemp_pick host _ (fs w)) as [tempDir|e].
  2:{ injection Hrun as <- <-. congruence. }
  unfold try_catch_finally in Hrun.
  set (w1 := log (Mkdtemp tempDir) _) in Hrun.
  destruct (redactSteps host bin req redactions tempDir w1) as [result w2] eqn:Esteps.
  apply redactSteps_outcome in Esteps.
  assert (Hfinal : forall (result : Completion unit) w3,
             match rm host tempDir w3 with
             | (Normal _, w4) => (result, w4)
             | (Abrupt e, w4) => (Abrupt e, w4)
             end = (o, w') -> response w3 = Some r).
  { intros res w3 E. destruct (rm host tempDir w3) as [[[]|e] w4] eqn:Erm;
      injection E as _ <-; now rewrite <- (rm_response _ _ _ _ _ Erm). }
  destruct Esteps as [e Hsame | H500 | buffer source staged files0 files1 entries images
                                         Hfile Hload Hdraw Hwrite Hexec Hdir Himgs Hsend].
  - simpl in Hrun. apply Hfinal in Hrun. simpl in Hrun. injection Hrun as <-. discriminate.
  - apply Hfinal in Hrun. rewrite H500 in Hrun. injection Hrun as <-. discriminate.
  - apply Hfinal in Hrun. rewrite Hsend in Hrun. injection Hrun as <-.
    subst w1. cbn [fs log fs_write] in Hwrite. rewrite String.eqb_refl in Hwrite.
    injection Hwrite as <-.
    econstructor; eauto.
Qed.

Lemma Forall2_images {R : string -> PDFImage -> Prop} (names : list string)
    (images : list PDFImage) :
  Forall2 R names images ->
  Forall (fun img => exists name, In name names /\ R name img) images
  /\ List.length images = List.length names.
Proof.
  induction 1 as [|name img names images HR _ [IH IHlen]]; [split; [constructor|reflexivity]|].
  split; [|simpl; now rewrite IHlen].
  constructor; [exists name; split; [now left|exact HR]|].
  eapply Forall_impl; [|exact IH].
  intros img' [name' [Hin HR']]. exists name'. split; [now right|exact HR'].
Qed.

Lemma generatedImages_perm (names : list string) :
  Permutation (generatedImages names) (filter isRedactedPageJpg names).
Proof. apply (Array_sort_perm pageNumberOf). Qed.

(** C1: a 200 answer carries the saved form of a document [out] every
    page of which has as its whole content one image, drawn at the
    origin with the image's width and height on a page of that width
    and height; the image is made by [embedJpg] from a file
    [redacted-page-<n>.jpg] found in the temporary directory after the
    rasterizer, the program found as [pdftoppm], ran on the staged
    document (the loaded upload with the rules applied).  No operator
    of the source's content streams is on any page of [out], and text
    extraction gives the empty string. *)
Theorem output_pages_are_rasters (host : Host) (req : Request) (w w' : World)
    (o : Completion unit) (r : Response) :
  response w = None ->
  redactPdf host req w = (o, w') ->
  response w' = Some r ->
  statusOf r = 200 ->
  exists (out source staged : PDFDocument) (buffer : bytes) (redactions : list Redaction)
         (bin tempDir : string) (files1 : FileSystem) (entries : Dir),
    r = send "application/pdf" ("attachment; filename=" ++ quoted "redacted.pdf")
          (PDFDocument_save host out)
    /\ file req = Some buffer
    /\ PDFDocument_load host buffer = Normal source
    /\ parseRedactions host (body_redactions req) = Normal redactions
    /\ forEach_redact host source redactions = Normal staged
    /\ resolvePdftoppmBinary host = Some bin
    /\ execFile host bin ["-jpeg"; "-r"; "220"; path_join tempDir "stage-redacted.pdf";
                          path_join tempDir "redacted-page"]
         ((tempDir, [("stage-redacted.pdf", PDFDocument_save host staged)]) :: fs w)
       = (files1, None)
    /\ assoc tempDir files1 = Some entries
    /\ Forall (fun p =>
         (exists name img,
            In name (map fst entries) /\ isRedactedPageJpg name = true
            /\ imageOf host entries name img
            /\ pageWidth p = imageWidth img /\ pageHeight p = imageHeight img
            /\ contents p = [Image img 0 0 (imageWidth img) (imageHeight img)])
         /\ (forall text, ~ In (SourceContent text) (contents p))
         /\ extractText p = "") (pages out).
Proof.
  intros Hfresh Hrun Hr H200.
  destruct (redactPdf_sent host req w w' o r Hfresh Hrun Hr H200)
    as [bin redactions tempDir buffer source staged files1 entries images
        Hbin Hparse Hfile Hload Hdraw Hexec Hdir Himgs Hsend].
  exists (mkDocument (map imagePage images)), source, staged, buffer, redactions,
         bin, tempDir, files1, entries.
  repeat (split; [assumption|]).
  cbn [pages]. apply Forall_map.
  destruct (Forall2_images _ _ Himgs) as [Hall _].
  eapply Forall_impl; [|exact Hall].
  intros img [name [Hin Himg]]. split; [|split].
  - exists name, img.
    apply (Permutation_in _ (generatedImages_perm _)) in Hin.
    apply filter_In in Hin. destruct Hin as [Hin Hname].
    repeat split; assumption || reflexivity.
  - intros text [E|[]]. discriminate.
  - reflexivity.
Qed.

Lemma forEach_redact_page_count (host : Host) (redactions : list Redaction) :
  forall source staged,
    forEach_redact host source redactions = Normal staged ->
    getPageCount staged = getPageCount source.
Proof.
  assert (Hset : forall l i p, List.length (setPage l i p) = List.length l).
  { induction l as [|q l IH]; intros [|i] p; simpl; auto. }
  induction redactions as [|entry rest IH]; intros source staged H; simpl in H.
  - now injection H as <-.
  - destruct (redactEntry host source entry) as [source'|e] eqn:E; [|discriminate].
    simpl in H. rewrite (IH _ _ H).
    unfold redactEntry in E. destruct (lt _ 0 || _); [now injection E as <-|].
    destruct (getPage host source _) as [[i p]|]; [|discriminate].
    simpl in E. injection E as <-. unfold getPageCount. simpl. apply Hset.
Qed.

(** C2: if the rasterizer, the program found as [pdftoppm], leaves one
    image per page of the staged document, the document sent with a 200
    answer has as many pages as the uploaded document. *)
Theorem output_page_count (host : Host) (req : Request) (w w' : World)
    (o : Completion unit) (r : Response) :
  oneImagePerPage host ->
  response w = None ->
  redactPdf host req w = (o, w') ->
  response w' = Some r ->
  statusOf r = 200 ->
  exists (buffer : bytes) (source out : PDFDocument),
    file req = Some buffer
    /\ PDFDocument_load host buffer = Normal source
    /\ r = send "application/pdf" ("attachment; filename=" ++ quoted "redacted.pdf")
             (PDFDocument_save host out)
    /\ getPageCount out = getPageCount source.
Proof.
  intros Hraster Hfresh Hrun Hr H200.
  destruct (redactPdf_sent host req w w' o r Hfresh Hrun Hr H200)
    as [bin redactions tempDir buffer source staged files1 entries images
        Hbin Hparse Hfile Hload Hdraw Hexec Hdir Himgs Hsend].
  exists buffer, source, (mkDocument (map imagePage images)).
  repeat (split; [assumption|]).
  unfold getPageCount at 1. cbn [pages]. rewrite length_map.
  destruct (Forall2_images _ _ Himgs) as [_ ->].
  rewrite (Permutation_length (generatedImages_perm _)).
  rewrite (Hraster _ _ _ _ _ _ Hbin Hexec Hdir).
  exact (forEach_redact_page_count host redactions source staged Hdraw).
Qed.

(** ** The sample host at work *)

Lemma sample_oneImagePerPage : oneImagePerPage (Sample.host true).
Proof.
  intros bin tempDir staged files files1 entries _ Hexec Hdir.
  cbn [execFile Sample.host PDFDocument_save map existsb] in Hexec.
  injection Hexec as <- Hfail.
  cbn [assoc] in Hdir. rewrite String.eqb_refl in Hdir. injection Hdir as <-.
  destruct (Sample.tooLong _) eqn:Elong; [discriminate|]. clear Hfail.
  unfold Sample.tooLong, Sample.rasterize in *. cbn [assoc] in *.
  rewrite String.eqb_refl in *.
  unfold getPageCount. destruct staged as [ps]. cbn [pages] in *.
  rewrite length_map in *.
  do 11 (destruct ps as [|? ps]; [reflexivity|]).
  discriminate.
Qed.

Lemma output_pages_are_rasters_witness :
  exists out,
    response (snd (redactPdf (Sample.host true) (Sample.upload 2 Sample.oneRule) Sample.idle))
    = Some (send "application/pdf" ("attachment; filename=" ++ quoted "redacted.pdf")
              (PDFDocument_save (Sample.host true) out))
    /\ List.length (pages out) = 2
    /\ Forall (fun p =>
                 extractText p = ""
                 /\ exists img,
                      contents p = [Image img 0 0 (imageWidth img) (imageHeight img)]
                      /\ pageWidth p = imageWidth img /\ pageHeight p = imageHeight img)
         (pages out).
Proof.
  pose (run := redactPdf (Sample.host true) (Sample.upload 2 Sample.oneRule) Sample.idle).
  destruct (output_pages_are_rasters (Sample.host true) (Sample.upload 2 Sample.oneRule)
              Sample.idle (snd run) (fst run)
              (send "application/pdf" ("attachment; filename=" ++ quoted "redacted.pdf")
                 [Byte.x25; Byte.x25]))
    as (out & source & staged & buffer & redactions & bin & tempDir & files1 & entries
        & Hr & _ & _ & _ & _ & _ & _ & _ & Hpages);
    [reflexivity | vm_compute; reflexivity | vm_compute; reflexivity | reflexivity |].
  exists out. split; [|split].
  - vm_compute. vm_compute in Hr. now rewrite Hr.
  - injection Hr as Hr. cbn [PDFDocument_save Sample.host] in Hr.
    rewrite <- (length_map (fun _ => Byte.x25)), <- Hr. reflexivity.
  - eapply Forall_impl; [|exact Hpages].
    intros p [(name & img & _ & _ & _ & Hw & Hh & Hc) [_ Htext]].
    split; [exact Htext|]. exists img. auto.
Defined.

Lemma output_page_count_witness :
  exists source out,
    PDFDocument_load (Sample.host true) (repeat Byte.x25 3) = Normal source
    /\ response (snd (redactPdf (Sample.host true) (Sample.upload 3 Sample.bothRules) Sample.idle))
       = Some (send "application/pdf" ("attachment; filename=" ++ quoted "redacted.pdf")
                 (PDFDocument_save (Sample.host true) out))
    /\ getPageCount out = getPageCount source.
Proof.
  pose (run := redactPdf (Sample.host true) (Sample.upload 3 Sample.bothRules) Sample.idle).
  destruct (output_page_count (Sample.host true) (Sample.upload 3 Sample.bothRules)
              Sample.idle (snd run) (fst run)
              (send "application/pdf" ("attachment; filename=" ++ quoted "redacted.pdf")
                 [Byte.x25; Byte.x25; Byte.x25]) sample_oneImagePerPage)
    as (buffer & source & out & Hfile & Hload & Hr & Hcount);
    [reflexivity | vm_compute; reflexivity | vm_compute; reflexivity | reflexivity |].
  injection Hfile as <-.
  exists source, out. split; [exact Hload|]. split; [|exact Hcount].
  vm_compute. vm_compute in Hr. now rewrite Hr.
Defined.

(** A run in which the rasterizer fails on an eleven-page upload: the
    answer is 500 and the directory is gone. *)
Lemma temp_dir_removed_witness :
  let run := redactPdf (Sample.host true) (Sample.upload 11 Sample.oneRule) Sample.idle in
  response (snd run) = Some (json 500 "Command failed")
  /\ In (Mkdtemp "/tmp/pdf-toolkit-Ab3xYz") (trace (snd run))
  /\ (exists steps,
        trace (snd run)
        = (Mkdtemp "/tmp/pdf-toolkit-Ab3xYz" :: steps ++ [Rm "/tmp/pdf-toolkit-Ab3xYz"])%list
        /\ Forall inner steps)
  /\ assoc "/tmp/pdf-toolkit-Ab3xYz" (fs (snd run)) = None.
Proof.
  intros run.
  assert (Hin : In (Mkdtemp "/tmp/pdf-toolkit-Ab3xYz") (trace (snd run)))
    by (vm_compute; left; reflexivity).
  destruct (temp_dir_removed (Sample.host true) (Sample.upload 11 Sample.oneRule)
              Sample.idle (snd run) (fst run) "/tmp/pdf-toolkit-Ab3xYz" (trace (snd run)))
    as [Hsteps Hgone]; [vm_compute; reflexivity | reflexivity | exact Hin |].
  split; [vm_compute; reflexivity|]. split; [exact Hin|]. split; [exact Hsteps|].
  apply Hgone. reflexivity.
Defined.

(** ** Rules for pages the document does not have *)

Lemma redactEntry_skips (host : Host) (source : PDFDocument) (entry : Redaction) :
  pageOutOfRange source entry = true -> redactEntry host source entry = Normal source.
Proof.
  unfold pageOutOfRange, redactEntry. now intros ->.
Qed.

Lemma forEach_redact_skips (host : Host) (entry : Redaction) (after before : list Redaction) :
  forall source,
    pageOutOfRange source entry = true ->
    forEach_redact host source (before ++ entry :: after)
    = forEach_redact host source (before ++ after).
Proof.
  induction before as [|first before IH]; intros source Hout; simpl.
  - now rewrite (redactEntry_skips host source entry Hout).
  - destruct (redactEntry host source first) as [source'|e] eqn:E; [|reflexivity].
    simpl. apply IH.
    assert (Hcount : getPageCount source' = getPageCount source)
      by (apply (forEach_redact_page_count host [first]); simpl; now rewrite E).
    unfold pageOutOfRange in *. now rewrite Hcount.
Qed.

(** C5, as stated, fails: with a rule for page 7 of a one-page document
    as the only rule the request is answered 200 with a document, and
    with that rule removed it is answered 400 with none. *)
Lemma sole_out_of_range_rule_matters :
  parseRedactions (Sample.host true) (Some Sample.farRule) = Normal [mkRedaction 7 0 0 1 1]
  /\ keepRedaction (mkRedaction 7 0 0 1 1) = true
  /\ PDFDocument_load (Sample.host true) (repeat Byte.x25 1)
     = Normal (mkDocument [Sample.letterPage])
  /\ pageOutOfRange (mkDocument [Sample.letterPage]) (mkRedaction 7 0 0 1 1) = true
  /\ option_map statusOf
       (response (snd (redactPdf (Sample.host true) (Sample.upload 1 Sample.farRule) Sample.idle)))
     = Some 200
  /\ parseRedactions (Sample.host true) (Some "[]") = Normal []
  /\ option_map statusOf
       (response (snd (redactPdf (Sample.host true) (Sample.upload 1 "[]") Sample.idle)))
     = Some 400.
Proof. repeat split; vm_compute; reflexivity. Qed.

(** C5, amended: a rule whose page is not a page of the loaded document
    is skipped by the drawing loop, without error and leaving the
    document as it was; and when at least one other rule remains, the
    handler does exactly what it does for the same request with that
    rule removed: same outcome, same answer, same calls, same file
    system. *)
Theorem out_of_range_rule_ignored :
  (forall (host : Host) (source : PDFDocument) (entry : Redaction),
     pageOutOfRange source entry = true ->
     redactEntry host source entry = Normal source)
  /\ (forall (host : Host) (req req' : Request) (w : World) (buffer : bytes)
             (before after : list Redaction) (entry : Redaction),
        file req = Some buffer ->
        file req' = Some buffer ->
        parseRedactions host (body_redactions req) = Normal (before ++ entry :: after)%list ->
        parseRedactions host (body_redactions req') = Normal (before ++ after)%list ->
        (before ++ after)%list <> [] ->
        (forall source, PDFDocument_load host buffer = Normal source ->
                        pageOutOfRange source entry = true) ->
        redactPdf host req w = redactPdf host req' w).
Proof.
  split; [exact redactEntry_skips|].
  intros host req req' w buffer before after entry Hfile Hfile' Hparse Hparse' Hrest Hout.
  unfold redactPdf. destruct (resolvePdftoppmBinary host) as [bin|]; [|reflexivity].
  unfold bind at 1 3, lift. rewrite Hparse, Hparse', Hfile, Hfile'.
  assert (Hlen : Nat.eqb (List.length (before ++ entry :: after)) 0 = false)
    by (rewrite length_app; simpl; apply Nat.eqb_neq; lia).
  assert (Hlen' : Nat.eqb (List.length (before ++ after)) 0 = false)
    by (apply Nat.eqb_neq; destruct (before ++ after)%list; [congruence|discriminate]).
  rewrite Hlen, Hlen'. cbn [negb orb].
  unfold bind at 1 2. destruct (mkdtemp host _ w) as [[tempDir|e] w1]; [|reflexivity].
  unfold try_catch_finally.
  replace (redactSteps host bin req' (before ++ after) tempDir w1)
    with (redactSteps host bin req (before ++ entry :: after) tempDir w1); [reflexivity|].
  unfold redactSteps. rewrite Hfile, Hfile'. unfold bind at 1 8, lift.
  unfold bind at 1 7, load.
  destruct (PDFDocument_load host buffer) as [source|e] eqn:Eload; [|reflexivity].
  unfold bind at 1 6, lift.
  now rewrite (forEach_redact_skips host entry after before source (Hout source eq_refl)).
Qed.

Lemma out_of_range_rule_ignored_witness :
  parseRedactions (Sample.host true) (Some Sample.bothRules)
  = Normal ([mkRedaction 1 0.1 0.2 0.6 0.1] ++ mkRedaction 7 0 0 1 1 :: [])%list
  /\ pageOutOfRange (mkDocument [Sample.letterPage; Sample.letterPage]) (mkRedaction 7 0 0 1 1)
     = true
  /\ redactPdf (Sample.host true) (Sample.upload 2 Sample.bothRules) Sample.idle
     = redactPdf (Sample.host true) (Sample.upload 2 Sample.oneRule) Sample.idle.
Proof.
  split; [vm_compute; reflexivity|]. split; [vm_compute; reflexivity|].
  apply (proj2 out_of_range_rule_ignored (Sample.host true)
           (Sample.upload 2 Sample.bothRules) (Sample.upload 2 Sample.oneRule) Sample.idle
           (repeat Byte.x25 2) [mkRedaction 1 0.1 0.2 0.6 0.1] [] (mkRedaction 7 0 0 1 1)).
  - reflexivity.
  - reflexivity.
  - vm_compute; reflexivity.
  - vm_compute; reflexivity.
  - discriminate.
  - intros source Hload. vm_compute in Hload. injection Hload as <-. vm_compute; reflexivity.
Defined.

(** * More of the server *)

(** ** Finding the binaries *)

(** X1: [findBinary] returns the first candidate, in list order, that
    [access] accepts: it returns [found] exactly when [found] is in the
    list, is executable and no candidate before it is; it returns
    nothing exactly when no candidate is executable. *)
Theorem findBinary_first_executable (host : Host) (candidates : list string) :
  (forall found, findBinary host candidates = Some found <->
     exists before after,
       candidates = (before ++ found :: after)%list
       /\ access_X_OK host found = true
       /\ Forall (fun c => access_X_OK host c = false) before)
  /\ (findBinary host candidates = None <->
      Forall (fun c => access_X_OK host c = false) candidates).
Proof.
  induction candidates as [|c rest [IHsome IHnone]]; simpl.
  - split.
    + intros found. split; [discriminate|].
      intros (before & after & E & _). now destruct before.
    + split; constructor.
  - destruct (access_X_OK host c) eqn:Ec; split.
    + intros found. split.
      * intros E. injection E as <-. exists [], rest. auto.
      * intros (before & after & E & Hf & Hall).
        destruct before as [|b before]; simpl in E; injection E as -> E; [reflexivity|].
        inversion Hall; congruence.
    + split; [discriminate|]. intros H. inversion H; congruence.
    + intros found. rewrite IHsome. split.
      * intros (before & after & -> & Hf & Hall). exists (c :: before), after. auto.
      * intros (before & after & E & Hf & Hall).
        destruct before as [|b before]; simpl in E; injection E as -> E; [congruence|].
        inversion Hall. eauto.
    + rewrite IHnone. split; [now constructor|]. intros H. now inversion H.
Qed.

Lemma candidates_found (host : Host) (configured : option string) (fixed : list string)
    (found : string) :
  findBinary host (candidates_of configured fixed) = Some found ->
  access_X_OK host found = true
  /\ (configured = Some found /\ found <> "" \/ In found fixed)
  /\ (forall path, configured = Some path -> path <> "" ->
      access_X_OK host path = true -> found = path).
Proof.
  intros Hfound.
  assert (Hsplit : exists before after,
             candidates_of configured fixed = (before ++ found :: after)%list
             /\ access_X_OK host found = true
             /\ Forall (fun c => access_X_OK host c = false) before).
  { revert Hfound. induction (candidates_of configured fixed) as [|c rest IH]; simpl;
      [discriminate|].
    destruct (access_X_OK host c) eqn:Ec.
    - intros [= <-]. exists [], rest. auto.
    - intros H. destruct (IH H) as (before & after & -> & Hf & Hall).
      exists (c :: before), after. auto. }
  destruct Hsplit as (before & after & E & Hf & Hall).
  split; [exact Hf|]. unfold candidates_of in E.
  destruct configured as [path|].
  - destruct (String.eqb_spec path "") as [->|Hne].
    + split; [right; rewrite E; apply in_elt|]. intros p [= <-] Hp. congruence.
    + destruct before as [|b before]; simpl in E; injection E as -> E.
      * split; [now left|]. now intros p [= <-].
      * split; [right; rewrite E; apply in_elt|].
        intros p [= <-] _ Hp. inversion Hall. congruence.
  - split; [right; rewrite E; apply in_elt|]. discriminate.
Qed.

(** X2: what a resolver returns is executable and is either the
    configured path, non-empty, or one of the resolver's three fixed
    candidates; and a configured, non-empty, executable path is the one
    returned, ahead of the bare command name and the install locations. *)
Theorem resolved_binary (host : Host) :
  let resolved configured fixed found :=
    access_X_OK host found = true
    /\ (configured = Some found /\ found <> "" \/ In found fixed)
    /\ (forall path, configured = Some path -> path <> "" ->
        access_X_OK host path = true -> found = path) in
  (forall found, resolveQpdfBinary host = Some found ->
     resolved (env_QPDF_PATH host)
       ["qpdf"; "C:/Program Files/qpdf/bin/qpdf.exe";
        "C:/Program Files (x86)/qpdf/bin/qpdf.exe"] found)
  /\ (forall found, resolveLibreOfficeBinary host = Some found ->
     resolved (env_LIBREOFFICE_PATH host)
       ["soffice"; "C:/Program Files/LibreOffice/program/soffice.exe";
        "C:/Program Files (x86)/LibreOffice/program/soffice.exe"] found)
  /\ (forall found, resolvePdftoppmBinary host = Some found ->
     resolved (env_PDFTOPPM_PATH host)
       ["pdftoppm"; "/usr/bin/pdftoppm"; "C:/Program Files/poppler/bin/pdftoppm.exe"] found).
Proof.
  cbv zeta. split; [|split]; intros found Hfound; exact (candidates_found _ _ _ _ Hfound).
Qed.


(** ** Upload names *)

Lemma includesChar_mapChars (f : ascii -> ascii) (c : ascii) (s : string) :
  includesChar c (mapChars f s) = true -> exists d, includesChar d s = true /\ c = f d.
Proof.
  induction s as [|d s IH]; simpl; [discriminate|].
  rewrite orb_true_iff. intros [E|H].
  - apply Ascii.eqb_eq in E. exists d. rewrite Ascii.eqb_refl. auto.
  - destruct (IH H) as [d' [Hd' ->]]. exists d'. rewrite Hd', orb_true_r. auto.
Qed.

Lemma length_mapChars (f : ascii -> ascii) (s : string) :
  String.length (mapChars f s) = String.length s.
Proof. induction s; simpl; congruence. Qed.

Lemma orElse_nonempty (value : option string) (fallback : string) :
  fallback <> "" -> orElse value fallback <> "".
Proof.
  intros H. unfold orElse. destruct value as [s|]; [|exact H].
  now destruct (String.eqb_spec s "").
Qed.

Lemma sanitizeBasename_nonempty (name : option string) : sanitizeBasename name <> "".
Proof.
  unfold sanitizeBasename.
  pose proof (orElse_nonempty name "file") as H.
  destruct (orElse name "file"); [now apply H|discriminate].
Qed.

(** X3: a sanitized name is never empty and is made of [a-zA-Z0-9._-]
    only, so it has no path separator and no NUL in it; a non-empty
    name keeps its length. *)
Theorem sanitizeBasename_safe (name : option string) :
  (forall c, includesChar c (sanitizeBasename name) = true -> isBasenameChar c = true)
  /\ sanitizeBasename name <> ""
  /\ isForeignName (sanitizeBasename name) = false
  /\ (forall s, name = Some s -> s <> "" ->
      String.length (sanitizeBasename name) = String.length s).
Proof.
  assert (Hsafe : forall c, includesChar c (sanitizeBasename name) = true ->
                            isBasenameChar c = true).
  { intros c H. apply includesChar_mapChars in H. destruct H as [d [_ ->]].
    destruct (isBasenameChar d) eqn:E; [exact E|reflexivity]. }
  split; [exact Hsafe|]. split; [apply sanitizeBasename_nonempty|]. split.
  - unfold isForeignName. apply orb_false_iff. split.
    + destruct (includesChar "/" _) eqn:E; [|reflexivity]. now apply Hsafe in E.
    + destruct (includesChar "000" _) eqn:E; [|reflexivity]. now apply Hsafe in E.
  - intros s -> Hs. unfold sanitizeBasename, orElse.
    destruct (String.eqb_spec s ""); [contradiction|]. apply length_mapChars.
Qed.

(** X4: sanitizing a sanitized name changes nothing, and a non-empty
    name that is already made of safe characters is returned as it is. *)
Theorem sanitizeBasename_idempotent (name : option string) :
  sanitizeBasename (Some (sanitizeBasename name)) = sanitizeBasename name
  /\ (forall s, name = Some s -> s <> "" ->
      (forall c, includesChar c s = true -> isBasenameChar c = true) ->
      sanitizeBasename name = s).
Proof.
  assert (Hfix : forall s, (forall c, includesChar c s = true -> isBasenameChar c = true) ->
                 mapChars (fun c => if isBasenameChar c then c else "_"%char) s = s).
  { induction s as [|d s IH]; intros H; simpl; [reflexivity|].
    rewrite (H d) by (simpl; now rewrite Ascii.eqb_refl).
    rewrite IH; [reflexivity|]. intros c Hc. apply H. simpl. now rewrite Hc, orb_true_r. }
  split.
  - unfold sanitizeBasename at 1. unfold orElse at 1.
    destruct (String.eqb_spec (sanitizeBasename name) "") as [E|_];
      [now apply sanitizeBasename_nonempty in E|].
    apply Hfix. apply sanitizeBasename_safe.
  - intros s -> Hs Hsafe. unfold sanitizeBasename, orElse.
    destruct (String.eqb_spec s ""); [contradiction|]. now apply Hfix.
Qed.

(** ** Allowed origins *)

Lemma trimStart_idem (s : string) : trimStart (trimStart s) = trimStart s.
Proof.
  induction s as [|c s IH]; simpl; [reflexivity|].
  destruct (isWhiteSpace c) eqn:E; [exact IH|]. simpl. now rewrite E.
Qed.

Lemma trimEnd_idem (s : string) : trimEnd (trimEnd s) = trimEnd s.
Proof.
  induction s as [|c s IH]; simpl; [reflexivity|].
  destruct (trimEnd s) as [|d t] eqn:Et.
  - destruct (isWhiteSpace c) eqn:E; simpl; [reflexivity|now rewrite E].
  - simpl in *. now rewrite IH.
Qed.

Lemma trimStart_trimEnd (c : ascii) (s : string) :
  isWhiteSpace c = false -> trimStart (trimEnd (String c s)) = trimEnd (String c s).
Proof.
  intros E. simpl. destruct (trimEnd s); rewrite ?E; simpl; now rewrite E.
Qed.

Lemma trim_idem (s : string) : trim (trim s) = trim s.
Proof.
  unfold trim. assert (H : trimStart (trimEnd (trimStart s)) = trimEnd (trimStart s)).
  { induction s as [|c s IH]; [reflexivity|]. cbn [trimStart].
    destruct (isWhiteSpace c) eqn:E; [exact IH|]. now apply trimStart_trimEnd. }
  now rewrite H, trimEnd_idem.
Qed.

Lemma includesChar_trimEnd (c : ascii) (s : string) :
  includesChar c (trimEnd s) = true -> includesChar c s = true.
Proof.
  induction s as [|d s IH]; simpl; [discriminate|].
  destruct (trimEnd s) as [|e t].
  - destruct (isWhiteSpace d); simpl; [discriminate|].
    rewrite orb_false_r. intros H. now rewrite H.
  - change (includesChar c (String d (String e t)))
      with (Ascii.eqb d c || includesChar c (String e t)).
    rewrite !orb_true_iff. intros [H|H]; [now left|right; now apply IH].
Qed.

Lemma includesChar_trimStart (c : ascii) (s : string) :
  includesChar c (trimStart s) = true -> includesChar c s = true.
Proof.
  induction s as [|d s IH]; simpl; [discriminate|].
  destruct (isWhiteSpace d); [|exact (fun H => H)].
  intros H. now rewrite (IH H), orb_true_r.
Qed.

Lemma includesChar_trim (c : ascii) (s : string) :
  includesChar c (trim s) = true -> includesChar c s = true.
Proof. intros H. now apply includesChar_trimStart, includesChar_trimEnd. Qed.

Lemma split_nonempty (sep : ascii) (s : string) : Text.split sep s <> [].
Proof.
  destruct s as [|c s]; simpl; [discriminate|].
  destruct (Ascii.eqb c sep); [discriminate|]. now destruct (Text.split sep s).
Qed.

Lemma split_pieces (sep : ascii) (s piece : string) :
  In piece (Text.split sep s) ->
  includesChar sep piece = false
  /\ forall c, includesChar c piece = true -> includesChar c s = true.
Proof.
  revert piece. induction s as [|d s IH]; simpl; intros piece Hin.
  - destruct Hin as [<-|[]]. split; [reflexivity|discriminate].
  - destruct (Ascii.eqb d sep) eqn:Ed.
    + destruct Hin as [<-|Hin]; [split; [reflexivity|discriminate]|].
      destruct (IH _ Hin) as [H1 H2]. split; [exact H1|].
      intros c Hc. now rewrite (H2 c Hc), orb_true_r.
    + destruct (Text.split sep s) as [|p ps] eqn:Es; [now destruct (split_nonempty sep s)|].
      destruct Hin as [<-|Hin].
      * destruct (IH p (or_introl eq_refl)) as [H1 H2]. split.
        -- simpl. now rewrite Ed, H1.
        -- intros c. simpl. rewrite !orb_true_iff. intros [H|H]; [now left|right; auto].
      * destruct (IH piece (or_intror Hin)) as [H1 H2]. split; [exact H1|].
        intros c Hc. now rewrite (H2 c Hc), orb_true_r.
Qed.

(** X5: every entry of the allow-list read from FRONTEND_ORIGIN is
    non-empty, has no white space around it and no comma in it. *)
Theorem allowedOrigins_entries (FRONTEND_ORIGIN : option string) :
  Forall (fun origin =>
            origin <> "" /\ trim origin = origin /\ includesChar "," origin = false)
    (allowedOrigins FRONTEND_ORIGIN).
Proof.
  unfold allowedOrigins. apply Forall_forall. intros origin Hin.
  apply filter_In in Hin. destruct Hin as [Hin Hne].
  apply in_map_iff in Hin. destruct Hin as [piece [<- Hpiece]].
  split; [|split].
  - intros E. rewrite E in Hne. discriminate.
  - apply trim_idem.
  - destruct (includesChar "," (trim piece)) eqn:E; [|reflexivity].
    apply includesChar_trim in E. destruct (split_pieces _ _ _ Hpiece) as [H _]. congruence.
Qed.

Lemma trimStart_blank (s : string) :
  (forall c, includesChar c s = true -> isWhiteSpace c = true) -> trimStart s = "".
Proof.
  induction s as [|d s IH]; intros H; simpl; [reflexivity|].
  rewrite (H d) by (simpl; now rewrite Ascii.eqb_refl).
  apply IH. intros c Hc. apply H. simpl. now rewrite Hc, orb_true_r.
Qed.

(** X6: when FRONTEND_ORIGIN is unset, empty, or made of commas and
    white space only, the allow-list is empty and the CORS check admits
    every request, whatever its origin. *)
Theorem blank_allow_list_admits_all (FRONTEND_ORIGIN : option string) :
  (forall value c, FRONTEND_ORIGIN = Some value -> includesChar c value = true ->
                   c = ","%char \/ isWhiteSpace c = true) ->
  allowedOrigins FRONTEND_ORIGIN = []
  /\ forall origin, corsOrigin (allowedOrigins FRONTEND_ORIGIN) origin = Normal true.
Proof.
  intros Hblank.
  assert (Hnone : allowedOrigins FRONTEND_ORIGIN = []).
  { unfold allowedOrigins.
    assert (H : forall c, includesChar c (orElse FRONTEND_ORIGIN "") = true ->
                          c = ","%char \/ isWhiteSpace c = true).
    { intros c. unfold orElse. destruct FRONTEND_ORIGIN as [value|]; [|discriminate].
      destruct (String.eqb value ""); [discriminate|]. now apply Hblank. }
    assert (Hpieces : forall piece, In piece (Text.split "," (orElse FRONTEND_ORIGIN "")) ->
                                    trim piece = "").
    { intros piece Hin. destruct (split_pieces _ _ _ Hin) as [Hcomma Hchars].
      unfold trim. rewrite trimStart_blank; [reflexivity|].
      intros c Hc. destruct (H c (Hchars c Hc)) as [->|Hws]; [congruence|exact Hws]. }
    induction (Text.split "," (orElse FRONTEND_ORIGIN "")) as [|piece pieces IH];
      [reflexivity|].
    simpl. rewrite (Hpieces piece (or_introl eq_refl)). simpl.
    apply IH. intros p Hp. apply Hpieces. now right. }
  split; [exact Hnone|]. intros origin. rewrite Hnone. unfold corsOrigin. simpl.
  now rewrite orb_true_r.
Qed.






(** ** The scope of a tool *)

Lemma scoped_inv (host : Host) (body : string -> Action unit) (fallback : string)
    (w w' : World) (o : Completion unit) :
  scoped host body fallback w = (o, w') ->
  (exists e, mkdtemp_pick host (path_join (os_tmpdir host) "pdf-toolkit-") (fs w) = Abrupt e
             /\ o = Abrupt e /\ w' = w)
  \/ (exists tempDir result w1 w2,
        mkdtemp_pick host (path_join (os_tmpdir host) "pdf-toolkit-") (fs w) = Normal tempDir
        /\ body tempDir (entered w tempDir) = (result, w1)
        /\ w2 = match result with
                | Normal _ => w1
                | Abrupt e =>
                    mkWorld (fs w1) (trace w1) (Some (json 500 (errorMessage e fallback)))
                end
        /\ trace w' = (trace w2 ++ [Rm tempDir])%list
        /\ response w' = response w2
        /\ match rm_fault host tempDir with
           | Some e => o = Abrupt e /\ fs w' = fs w2
           | None => o = Normal tt /\ fs w' = fs_remove tempDir (fs w2)
           end).
Proof.
  unfold scoped, bind, mkdtemp. intros H.
  destruct (mkdtemp_pick host _ (fs w)) as [tempDir|e].
  2:{ injection H as <- <-. left. now exists e. }
  right. unfold try_catch_finally in H. fold (entered w tempDir) in H.
  destruct (body tempDir (entered w tempDir)) as [result w1] eqn:Ebody.
  exists tempDir, result, w1.
  eexists. split; [reflexivity|]. split; [exact Ebody|]. split; [reflexivity|].
  destruct result as [[]|e]; unfold respond, rm in H; simpl in H;
    destruct (rm_fault host tempDir); injection H as <- <-; simpl; auto.
Qed.

Lemma scoped_cleanup (host : Host) (body : string -> Action unit) (fallback : string)
    (w w' : World) (o : Completion unit) (dir : string) (events : list Event) :
  (forall tempDir, quiet (body tempDir)) ->
  scoped host body fallback w = (o, w') ->
  trace w' = (trace w ++ events)%list ->
  In (Mkdtemp dir) events ->
  (exists steps, events = (Mkdtemp dir :: steps ++ [Rm dir])%list /\ Forall inner steps)
  /\ (rm_fault host dir = None -> assoc dir (fs w') = None).
Proof.
  intros Hquiet Hrun Htrace Hin.
  destruct (scoped_inv _ _ _ _ _ _ Hrun)
    as [(e & _ & _ & ->) | (tempDir & result & w1 & w2 & _ & Hbody & -> & Ht & _ & Hrm)].
  - rewrite <- (app_nil_r (trace w)) in Htrace at 1.
    apply app_inv_head in Htrace. subst events. contradiction.
  - destruct (Hquiet tempDir _ _ _ Hbody) as [steps [Hsteps Hinner]].
    assert (Hevents : events = (Mkdtemp tempDir :: steps ++ [Rm tempDir])%list).
    { apply (app_inv_head (trace w)). rewrite <- Htrace, Ht.
      destruct result; cbn [trace]; rewrite Hsteps; unfold entered, log; cbn [trace];
        now rewrite <- !app_assoc. }
    subst events.
    assert (dir = tempDir) as ->.
    { destruct Hin as [E|Hin]; [now injection E|].
      apply in_app_or in Hin. destruct Hin as [Hin|[E|[]]]; [|discriminate].
      rewrite Forall_forall in Hinner. destruct (Hinner _ Hin). }
    split; [now exists steps|].
    intros Hok. rewrite Hok in Hrm. destruct Hrm as [_ ->]. apply assoc_fs_remove.
Qed.

(** [m], when it completes normally, has sent a file. *)
Lemma sends_bind {A} (m : Action A) (k : A -> Action unit) :
  (forall a w o w', k a w = (o, w') -> o = Normal tt ->
                    exists c d b, response w' = Some (send c d b)) ->
  forall w o w', bind m k w = (o, w') -> o = Normal tt ->
                 exists c d b, response w' = Some (send c d b).
Proof.
  intros Hk w o w' H Ho. unfold bind in H. destruct (m w) as [[a|e] w1].
  - now apply (Hk a w1 o w').
  - injection H as <- <-. discriminate.
Qed.

Lemma sends_respond (c d : string) (b : bytes) :
  forall w o w', respond (send c d b) w = (o, w') -> o = Normal tt ->
                 exists c d b, response w' = Some (send c d b).
Proof. intros w o w' H _. injection H as <- <-. simpl. eauto. Qed.

Section ToolFacts.

Variable host : Host.
Variable notAFile : string -> Thrown.
Variable readElsewhere : string -> FileSystem -> Completion bytes.

Lemma quiet_writeUpload dir name data : quiet (writeUpload host notAFile dir name data).
Proof.
  unfold writeUpload. destruct (isDotName name); [|apply quiet_writeFile].
  apply (quiet_one _ (WriteFile dir name) I). intros w o w' H. now injection H as <- <-.
Qed.

Lemma quiet_readOutput dir name : quiet (readOutput notAFile readElsewhere dir name).
Proof.
  unfold readOutput. destruct (isDotName name); [apply quiet_lift|].
  destruct (isForeignName name); [|apply quiet_readFile].
  apply quiet_same. intros w o w' H. now injection H as <- <-.
Qed.

Lemma quiet_tools :
  (forall qpdf password req tempDir,
     quiet (protectSteps host notAFile qpdf password req tempDir))
  /\ (forall qpdf password req tempDir,
     quiet (unlockSteps host notAFile qpdf password req tempDir))
  /\ (forall qpdf req tempDir, quiet (repairSteps host notAFile qpdf req tempDir))
  /\ (forall soffice target req tempDir,
     quiet (convertSteps host notAFile readElsewhere soffice target req tempDir)).
Proof.
  repeat split; intros;
    (apply quiet_bind; [apply quiet_lift|]; intros u;
     apply quiet_bind; [apply quiet_writeUpload|]; intros _;
     apply quiet_bind; [apply quiet_execFileAsync|]; intros _;
     apply quiet_bind; [first [apply quiet_readFile|apply quiet_readOutput]|]; intros out;
     apply quiet_respond).
Qed.

(** What a handler found at a path of [toolRoute] is: an early answer
    that touches nothing, or a scope around the tool's steps. *)
Lemma tool_shape (path : string) (handler : ToolRequest -> Action unit) (req : ToolRequest) :
  toolRoute host notAFile readElsewhere path = Some handler ->
  (exists status message,
     In status [400; 501] /\ handler req = respond (json status message))
  \/ (exists body fallback,
        (forall tempDir, quiet (body tempDir))
        /\ (forall tempDir w o w', body tempDir w = (o, w') ->
              o = Normal tt -> exists c d b, response w' = Some (send c d b))
        /\ handler req = scoped host body fallback).
Proof.
  destruct quiet_tools as (Qp & Qu & Qr & Qc).
  unfold toolRoute. intros H.
  repeat match type of H with
         | (if ?b then _ else _) = _ => destruct b
         end; try discriminate; injection H as <-.
  - unfold protectPdf. destruct (resolveQpdfBinary host) as [qpdf|];
      [|left; exists 501; eexists; split; [simpl; auto|reflexivity]].
    destruct (negb _ || _); [left; exists 400; eexists; split; [simpl; auto|reflexivity]|].
    right. eexists _, _. split; [intros; apply Qp|]. split; [|reflexivity].
    intros tempDir. unfold protectSteps. repeat (apply sends_bind; intros ?).
    apply sends_respond.
  - unfold unlockPdf. destruct (resolveQpdfBinary host) as [qpdf|];
      [|left; exists 501; eexists; split; [simpl; auto|reflexivity]].
    destruct (negb _); [left; exists 400; eexists; split; [simpl; auto|reflexivity]|].
    right. eexists _, _. split; [intros; apply Qu|]. split; [|reflexivity].
    intros tempDir. unfold unlockSteps. repeat (apply sends_bind; intros ?).
    apply sends_respond.
  - unfold repairPdf. destruct (resolveQpdfBinary host) as [qpdf|];
      [|left; exists 501; eexists; split; [simpl; auto|reflexivity]].
    destruct (negb _); [left; exists 400; eexists; split; [simpl; auto|reflexivity]|].
    right. eexists _, _. split; [intros; apply Qr|]. split; [|reflexivity].
    intros tempDir. unfold repairSteps. repeat (apply sends_bind; intros ?).
    apply sends_respond.
  - unfold convert. destruct (resolveLibreOfficeBinary host) as [soffice|];
      [|left; exists 501; eexists; split; [simpl; auto|reflexivity]].
    destruct (negb _ || _); [left; exists 400; eexists; split; [simpl; auto|reflexivity]|].
    right. eexists _, _. split; [intros; apply Qc|]. split; [|reflexivity].
    intros tempDir. unfold convertSteps. repeat (apply sends_bind; intros ?).
    apply sends_respond.
Qed.

(** X8: for each of the four pass-through tools (protect, unlock,
    repair, convert): once the temporary directory is created, the
    calls that follow create or remove no directory until the removal
    of that directory, which is the last call, on the success path, the
    error paths and the throwing paths alike; unless the removal fails
    the directory is gone when the handler completes. *)
Theorem tools_temp_dir_removed (path : string) (handler : ToolRequest -> Action unit)
    (req : ToolRequest) (w w' : World) (o : Completion unit) (dir : string)
    (events : list Event) :
  toolRoute host notAFile readElsewhere path = Some handler ->
  handler req w = (o, w') ->
  trace w' = (trace w ++ events)%list ->
  In (Mkdtemp dir) events ->
  (exists steps, events = (Mkdtemp dir :: steps ++ [Rm dir])%list /\ Forall inner steps)
  /\ (rm_fault host dir = None -> assoc dir (fs w') = None).
Proof.
  intros Hroute Hrun Htrace Hin.
  destruct (tool_shape path handler req Hroute)
    as [(status & message & _ & E) | (body & fallback & Hquiet & _ & E)];
    rewrite E in Hrun.
  - injection Hrun as <- <-. simpl in Htrace.
    rewrite <- (app_nil_r (trace w)) in Htrace at 1.
    apply app_inv_head in Htrace. subst events. contradiction.
  - exact (scoped_cleanup host body fallback w w' o dir events Hquiet Hrun Htrace Hin).
Qed.

(** X9: each pass-through tool answers every request with status 200,
    400, 500 or 501, and then completes normally unless the final [rm]
    throws; the one exception is a failing [mkdtemp], which is outside
    the [try]: the handler then throws, sends nothing and changes
    nothing. *)
Theorem tools_answer_unless_mkdtemp_fails (path : string)
    (handler : ToolRequest -> Action unit) (req : ToolRequest) (w w' : World)
    (o : Completion unit) :
  toolRoute host notAFile readElsewhere path = Some handler ->
  handler req w = (o, w') ->
  (exists r, response w' = Some r /\ In (statusOf r) [200; 400; 500; 501]
             /\ (o = Normal tt \/ exists dir e, rm_fault host dir = Some e /\ o = Abrupt e))
  \/ (exists e,
        mkdtemp_pick host (path_join (os_tmpdir host) "pdf-toolkit-") (fs w) = Abrupt e
        /\ o = Abrupt e /\ w' = w).
Proof.
  intros Hroute Hrun.
  destruct (tool_shape path handler req Hroute)
    as [(status & message & Hstatus & E) | (body & fallback & _ & Hsends & E)];
    rewrite E in Hrun.
  - injection Hrun as <- <-. left. exists (json status message).
    split; [reflexivity|]. split; [|now left].
    simpl in *. intuition.
  - destruct (scoped_inv _ _ _ _ _ _ Hrun)
      as [(e & He & -> & ->) | (tempDir & result & w1 & w2 & _ & Hbody & -> & _ & Hr & Hrm)].
    + right. now exists e.
    + left. assert (Ho : o = Normal tt \/ exists dir e, rm_fault host dir = Some e /\ o = Abrupt e).
      { destruct (rm_fault host tempDir) as [e|] eqn:Erm.
        - right. exists tempDir, e. tauto.
        - left. tauto. }
      destruct result as [[]|e].
      * destruct (Hsends _ _ _ _ Hbody eq_refl) as (c & d & b & Hsent).
        exists (send c d b). rewrite Hr. split; [exact Hsent|]. split; [simpl; auto|exact Ho].
      * eexists. rewrite Hr. split; [reflexivity|]. split; [simpl; auto|exact Ho].
Qed.

(** The steps every tool starts with, when they succeed. *)
Lemma run_binary_inv (req : ToolRequest) (tempDir bin : string) (w w2 : World)
    (name_of : Upload -> string) (args_of : Upload -> list string)
    (k : Upload -> Action unit) :
  bind (theUpload req) (fun u =>
    bind (writeUpload host notAFile tempDir (name_of u) (buffer u)) (fun _ =>
    bind (execFileAsync host bin (args_of u)) (fun _ => k u)))
    (entered w tempDir) = (Normal tt, w2) ->
  exists u files1,
    upload req = Some u
    /\ isDotName (name_of u) = false
    /\ execFile host bin (args_of u) ((tempDir, [(name_of u, buffer u)]) :: fs w)
       = (files1, None)
    /\ k u (mkWorld files1
              (trace w ++ [Mkdtemp tempDir; WriteFile tempDir (name_of u);
                           ExecFile bin (args_of u)])%list
              (response w)) = (Normal tt, w2).
Proof.
  unfold bind at 1, theUpload, lift. intros H.
  destruct (upload req) as [u|]; [|discriminate].
  exists u. unfold bind at 1, writeUpload in H.
  destruct (isDotName (name_of u)); [discriminate|].
  unfold writeFile in H. destruct (writeFile_fault host tempDir (name_of u)); [discriminate|].
  unfold entered in H. cbn [fs log trace response fs_write] in H.
  rewrite String.eqb_refl in H. cbn [dir_write] in H.
  unfold bind at 1, execFileAsync in H. cbn [fs log trace response] in H.
  destruct (execFile host bin (args_of u) _) as [files1 [e|]] eqn:Eexec; [discriminate|].
  exists files1. repeat split; try reflexivity.
  unfold log in H. cbn [fs trace response] in H.
  rewrite <- !app_assoc in H. exact H.
Qed.

Lemma read_and_send_inv (dir name contentType disposition : string) (w w2 : World) :
  bind (readFile dir name) (fun out => respond (send contentType disposition out)) w
  = (Normal tt, w2) ->
  exists entries out,
    assoc dir (fs w) = Some entries /\ assoc name entries = Some out
    /\ w2 = mkWorld (fs w) (trace w) (Some (send contentType disposition out)).
Proof.
  unfold bind, readFile, respond. intros H.
  destruct (assoc dir (fs w)) as [entries|] eqn:Edir; [|discriminate].
  destruct (assoc name entries) as [out|] eqn:Eout; [|discriminate].
  injection H as <-. exists entries, out. auto.
Qed.



(** X11: a 200 answer of [/api/unlock-pdf] means qpdf ran once with
    [--decrypt <input> <output>], preceded by [--password=<password>]
    exactly when a non-empty password was given, and the body sent is
    the [unlocked.pdf] it left; a missing password is not an error. *)
Theorem unlock_success (req : ToolRequest) (w w' : World) (o : Completion unit)
    (r : Response) :
  response w = None ->
  unlockPdf host notAFile req w = (o, w') ->
  response w' = Some r ->
  statusOf r = 200 ->
  exists qpdf u tempDir files1 entries out,
    resolveQpdfBinary host = Some qpdf
    /\ upload req = Some u
    /\ let inputName := sanitizeBasename (Some (orElse (originalname u) "input.pdf")) in
       let files := [path_join tempDir inputName; path_join tempDir "unlocked.pdf"] in
       let args :=
         match body_password req with
         | Some (String c rest) => ("--password=" ++ String c rest) :: "--decrypt" :: files
         | _ => "--decrypt" :: files
         end in
       execFile host qpdf args ((tempDir, [(inputName, buffer u)]) :: fs w) = (files1, None)
       /\ assoc tempDir files1 = Some entries
       /\ assoc "unlocked.pdf" entries = Some out
       /\ r = send "application/pdf" ("attachment; filename=" ++ quoted "unlocked.pdf") out
       /\ trace w' = (trace w ++ [Mkdtemp tempDir; WriteFile tempDir inputName;
                                  ExecFile qpdf args; Rm tempDir])%list.
Proof.
  intros Hfresh Hrun Hr H200. unfold unlockPdf in Hrun.
  destruct (resolveQpdfBinary host) as [qpdf|] eqn:Ebin.
  2:{ injection Hrun as <- <-. injection Hr as <-. discriminate. }
  destruct (negb (hasUpload req)).
  { injection Hrun as <- <-. injection Hr as <-. discriminate. }
  change (scoped host (unlockSteps host notAFile qpdf (orElse (body_password req) "") req)
            "Unlock failed" w = (o, w')) in Hrun.
  destruct (scoped_inv _ _ _ _ _ _ Hrun)
    as [(e & _ & _ & ->) | (tempDir & result & w1 & w2 & _ & Hbody & -> & Ht & Hresp & _)].
  { congruence. }
  destruct result as [[]|e].
  2:{ rewrite Hresp in Hr. injection Hr as <-. discriminate. }
  apply (run_binary_inv req tempDir qpdf w w1
           (fun u => sanitizeBasename (Some (orElse (originalname u) "input.pdf")))
           (fun u =>
              if String.eqb (orElse (body_password req) "") ""
              then ["--decrypt";
                    path_join tempDir
                      (sanitizeBasename (Some (orElse (originalname u) "input.pdf")));
                    path_join tempDir "unlocked.pdf"]
              else ["--password=" ++ orElse (body_password req) ""; "--decrypt";
                    path_join tempDir
                      (sanitizeBasename (Some (orElse (originalname u) "input.pdf")));
                    path_join tempDir "unlocked.pdf"])) in Hbody.
  destruct Hbody as (u & files1 & Hu & _ & Hexec & Hk).
  apply read_and_send_inv in Hk. destruct Hk as (entries & out & Hdir & Hout & ->).
  cbn [fs trace response] in *. rewrite Hresp in Hr. injection Hr as <-.
  exists qpdf, u, tempDir, files1, entries, out.
  cbv zeta.
  assert (Hargs : forall files,
            (if String.eqb (orElse (body_password req) "") ""
             then "--decrypt" :: files
             else ("--password=" ++ orElse (body_password req) "") :: "--decrypt" :: files)
            = match body_password req with
              | Some (String c rest) => ("--password=" ++ String c rest) :: "--decrypt" :: files
              | _ => "--decrypt" :: files
              end).
  { intros files. destruct (body_password req) as [[|c rest]|]; reflexivity. }
  rewrite <- Hargs.
  repeat (split; [first [assumption|reflexivity]|]).
  rewrite Ht, <- app_assoc. reflexivity.
Qed.

(** X12: a 200 answer of [/api/convert] means LibreOffice ran once with
    [--headless --convert-to <target> --outdir <tempDir> <input>], the
    target being the field in lower case and not empty; the file sent
    and the name in Content-Disposition are [<base>.<target>], [base]
    being the sanitized upload name without its last extension; that
    file is read from the temporary directory when the name is a plain
    entry name. *)
Theorem convert_success (req : ToolRequest) (w w' : World) (o : Completion unit)
    (r : Response) :
  response w = None ->
  convert host notAFile readElsewhere req w = (o, w') ->
  response w' = Some r ->
  statusOf r = 200 ->
  exists soffice u tempDir files1 out,
    resolveLibreOfficeBinary host = Some soffice
    /\ upload req = Some u
    /\ let target := toLowerCase (orElse (body_target req) "") in
       let inputName := sanitizeBasename (Some (orElse (originalname u) "input.bin")) in
       let outputName := baseOf inputName ++ "." ++ target in
       let args := ["--headless"; "--convert-to"; target; "--outdir"; tempDir;
                    path_join tempDir inputName] in
       target <> ""
       /\ execFile host soffice args ((tempDir, [(inputName, buffer u)]) :: fs w)
          = (files1, None)
       /\ isDotName outputName = false
       /\ (if isForeignName outputName
           then readElsewhere (path_join tempDir outputName) files1 = Normal out
           else exists entries,
                  assoc tempDir files1 = Some entries /\ assoc outputName entries = Some out)
       /\ r = send "application/octet-stream" ("attachment; filename=" ++ quoted outputName) out
       /\ trace w' = (trace w ++ [Mkdtemp tempDir; WriteFile tempDir inputName;
                                  ExecFile soffice args; Rm tempDir])%list.
Proof.
  intros Hfresh Hrun Hr H200. unfold convert in Hrun.
  destruct (resolveLibreOfficeBinary host) as [soffice|] eqn:Ebin.
  2:{ injection Hrun as <- <-. injection Hr as <-. discriminate. }
  destruct (negb (hasUpload req) || _) eqn:Eguard.
  { injection Hrun as <- <-. injection Hr as <-. discriminate. }
  apply orb_false_iff in Eguard. destruct Eguard as [_ Htarget].
  set (target := toLowerCase (orElse (body_target req) "")) in *.
  change (scoped host (convertSteps host notAFile readElsewhere soffice target req)
            "Conversion failed" w = (o, w')) in Hrun.
  destruct (scoped_inv _ _ _ _ _ _ Hrun)
    as [(e & _ & _ & ->) | (tempDir & result & w1 & w2 & _ & Hbody & -> & Ht & Hresp & _)].
  { congruence. }
  destruct result as [[]|e].
  2:{ rewrite Hresp in Hr. injection Hr as <-. discriminate. }
  apply (run_binary_inv req tempDir soffice w w1
           (fun u => sanitizeBasename (Some (orElse (originalname u) "input.bin")))
           (fun u => ["--headless"; "--convert-to"; target; "--outdir"; tempDir;
                      path_join tempDir
                        (sanitizeBasename (Some (orElse (originalname u) "input.bin")))]))
    in Hbody.
  destruct Hbody as (u & files1 & Hu & _ & Hexec & Hk).
  cbv zeta in Hk. unfold bind, readOutput in Hk.
  set (outputName := baseOf _ ++ "." ++ target) in *.
  exists soffice, u, tempDir, files1. cbv zeta. fold target. fold outputName.
  destruct (isDotName outputName) eqn:Edot; [discriminate|].
  destruct (isForeignName outputName) eqn:Eforeign.
  - cbn [fs] in Hk.
    destruct (readElsewhere (path_join tempDir outputName) files1) as [out|e] eqn:Eread;
      [|discriminate].
    injection Hk as <-. cbn [response trace] in *. rewrite Hresp in Hr. injection Hr as <-.
    exists out. split; [reflexivity|]. split; [exact Hu|].
    split; [now destruct (String.eqb_spec target "")|].
    repeat (split; [first [assumption|reflexivity]|]).
    rewrite Ht, <- app_assoc. reflexivity.
  - unfold readFile in Hk. cbn [fs] in Hk.
    destruct (assoc tempDir files1) as [entries|] eqn:Edir; [|discriminate].
    destruct (assoc outputName entries) as [out|] eqn:Eout; [|discriminate].
    injection Hk as <-. cbn [response trace] in *. rewrite Hresp in Hr. injection Hr as <-.
    exists out. split; [reflexivity|]. split; [exact Hu|].
    split; [now destruct (String.eqb_spec target "")|].
    split; [assumption|]. split; [reflexivity|].
    split; [now exists entries|]. split; [reflexivity|].
    rewrite Ht, <- app_assoc. reflexivity.
Qed.

End ToolFacts.


Section ToolGuards.

Variable host : Host.
Variable notAFile : string -> Thrown.
Variable readElsewhere : string -> FileSystem -> Completion bytes.

(** X13: without qpdf, protect, unlock and repair answer 501, and
    without LibreOffice convert answers 501, whatever the request holds
    and before anything else: file system and call trace are unchanged. *)
Theorem tools_missing_binary_501 (req : ToolRequest) (w : World) :
  (resolveQpdfBinary host = None ->
   let answer :=
     (Normal tt,
      mkWorld (fs w) (trace w)
        (Some (json 501 "qpdf binary not found. Set QPDF_PATH or install qpdf."))) in
   protectPdf host notAFile req w = answer
   /\ unlockPdf host notAFile req w = answer
   /\ repairPdf host notAFile req w = answer)
  /\ (resolveLibreOfficeBinary host = None ->
      convert host notAFile readElsewhere req w
      = (Normal tt,
         mkWorld (fs w) (trace w)
           (Some (json 501
              "LibreOffice binary not found. Set LIBREOFFICE_PATH or install LibreOffice.")))).
Proof.
  split.
  - intros H. unfold protectPdf, unlockPdf, repairPdf. rewrite H. repeat split.
  - intros H. unfold convert. now rewrite H.
Qed.

(** X14: with the binary found, protect answers 400 when the file or
    the password is missing or the password is empty, unlock and repair
    when the file is missing, convert when the file or the target is
    missing or the target is empty; nothing is created or run. *)
Theorem tools_missing_input_400 (req : ToolRequest) (w : World) (binary : string) :
  let rejected message := (Normal tt, mkWorld (fs w) (trace w) (Some (json 400 message))) in
  (resolveQpdfBinary host = Some binary ->
   (upload req = None \/ body_password req = None \/ body_password req = Some "" ->
    protectPdf host notAFile req w = rejected "file and password are required")
   /\ (upload req = None ->
       unlockPdf host notAFile req w = rejected "file is required"
       /\ repairPdf host notAFile req w = rejected "file is required"))
  /\ (resolveLibreOfficeBinary host = Some binary ->
      upload req = None \/ body_target req = None \/ body_target req = Some "" ->
      convert host notAFile readElsewhere req w = rejected "file and target are required").
Proof.
  cbv zeta. split.
  - intros Hbin. split.
    + intros H. unfold protectPdf, hasUpload. rewrite Hbin.
      destruct H as [-> | [-> | ->]]; [reflexivity| |]; destruct (upload req); reflexivity.
    + intros H. unfold unlockPdf, repairPdf, hasUpload. rewrite Hbin, H. split; reflexivity.
  - intros Hbin H. unfold convert, hasUpload. rewrite Hbin.
    destruct H as [-> | [-> | ->]]; [reflexivity| |]; destruct (upload req); reflexivity.
Qed.

Lemma sanitized_dot_name (name : option string) (fallback : string) :
  name = Some "." \/ name = Some ".." ->
  isDotName (sanitizeBasename (Some (orElse name fallback))) = true.
Proof. intros [-> | ->]; reflexivity. Qed.

Lemma dot_upload_steps (req : ToolRequest) (u : Upload) (tempDir fallback : string)
    (rest : Upload -> Action unit) (w : World) :
  upload req = Some u ->
  originalname u = Some "." \/ originalname u = Some ".." ->
  let name := sanitizeBasename (Some (orElse (originalname u) fallback)) in
  bind (theUpload req) (fun u =>
    bind (writeUpload host notAFile tempDir
            (sanitizeBasename (Some (orElse (originalname u) fallback))) (buffer u))
         (fun _ => rest u)) w
  = (Abrupt (notAFile (path_join tempDir name)), log (WriteFile tempDir name) w).
Proof.
  intros Hu Hdot. cbv zeta. unfold bind, theUpload, lift, writeUpload. rewrite Hu.
  now rewrite (sanitized_dot_name _ fallback Hdot).
Qed.

(** X15: an upload whose name is [.] or [..] keeps that name after
    sanitizing; the path then names a directory, the write fails, and no
    pass-through tool runs its binary or answers 200 for such a
    request. *)
Theorem dot_upload_never_reaches_the_binary (path : string)
    (handler : ToolRequest -> Action unit) (req : ToolRequest) (u : Upload)
    (w w' : World) (o : Completion unit) (events : list Event) :
  toolRoute host notAFile readElsewhere path = Some handler ->
  upload req = Some u ->
  originalname u = Some "." \/ originalname u = Some ".." ->
  handler req w = (o, w') ->
  trace w' = (trace w ++ events)%list ->
  (forall file args, ~ In (ExecFile file args) events)
  /\ (response w = None -> forall r, response w' = Some r -> statusOf r <> 200).
Proof.
  intros Hroute Hu Hdot Hrun Htrace.
  assert (Hscoped : forall (steps : string -> Action unit) fallback,
            (forall tempDir w1, exists name e,
               steps tempDir w1 = (Abrupt e, log (WriteFile tempDir name) w1)) ->
            scoped host steps fallback w = (o, w') ->
            (forall file args, ~ In (ExecFile file args) events)
            /\ (response w = None -> forall r, response w' = Some r -> statusOf r <> 200)).
  { intros steps fallback Hsteps Hs.
    destruct (scoped_inv _ _ _ _ _ _ Hs)
      as [(e & _ & _ & ->) | (tempDir & result & w1 & w2 & _ & Hbody & -> & Ht & Hresp & _)].
    - split; [|congruence].
      rewrite <- (app_nil_r (trace w)) in Htrace at 1.
      apply app_inv_head in Htrace. subst events. auto.
    - destruct (Hsteps tempDir (entered w tempDir)) as (name & e & E).
      rewrite E in Hbody. injection Hbody as <- <-. split.
      + cbn [trace log entered] in Ht. rewrite Ht, <- !app_assoc in Htrace.
        apply app_inv_head in Htrace. subst events.
        intros file args [H|[H|[H|[]]]]; discriminate.
      + intros _ r Hr. rewrite Hresp in Hr. injection Hr as <-. discriminate. }
  assert (Hearly : forall status message,
            In status [400; 501] ->
            respond (json status message) w = (o, w') ->
            (forall file args, ~ In (ExecFile file args) events)
            /\ (response w = None -> forall r, response w' = Some r -> statusOf r <> 200)).
  { intros status message Hstatus E. injection E as <- <-. split.
    - simpl in Htrace. rewrite <- (app_nil_r (trace w)) in Htrace at 1.
      apply app_inv_head in Htrace. subst events. auto.
    - intros _ r Hr. injection Hr as <-. simpl in *. intuition; subst; discriminate. }
  unfold toolRoute in Hroute.
  repeat match type of Hroute with
         | (if ?b then _ else _) = _ => destruct b
         end; try discriminate; injection Hroute as <-.
  - unfold protectPdf in Hrun. destruct (resolveQpdfBinary host) as [qpdf|];
      [|eapply Hearly; [|exact Hrun]; simpl; auto].
    destruct (negb _ || _); [eapply Hearly; [|exact Hrun]; simpl; auto|].
    eapply Hscoped; [|exact Hrun]. intros tempDir w1. eexists _, _.
    exact (dot_upload_steps req u tempDir "input.pdf" _ w1 Hu Hdot).
  - unfold unlockPdf in Hrun. destruct (resolveQpdfBinary host) as [qpdf|];
      [|eapply Hearly; [|exact Hrun]; simpl; auto].
    destruct (negb _); [eapply Hearly; [|exact Hrun]; simpl; auto|].
    eapply Hscoped; [|exact Hrun]. intros tempDir w1. eexists _, _.
    exact (dot_upload_steps req u tempDir "input.pdf" _ w1 Hu Hdot).
  - unfold repairPdf in Hrun. destruct (resolveQpdfBinary host) as [qpdf|];
      [|eapply Hearly; [|exact Hrun]; simpl; auto].
    destruct (negb _); [eapply Hearly; [|exact Hrun]; simpl; auto|].
    eapply Hscoped; [|exact Hrun]. intros tempDir w1. eexists _, _.
    exact (dot_upload_steps req u tempDir "input.pdf" _ w1 Hu Hdot).
  - unfold convert in Hrun. destruct (resolveLibreOfficeBinary host) as [soffice|];
      [|eapply Hearly; [|exact Hrun]; simpl; auto].
    destruct (negb _ || _); [eapply Hearly; [|exact Hrun]; simpl; auto|].
    eapply Hscoped; [|exact Hrun]. intros tempDir w1. eexists _, _.
    exact (dot_upload_steps req u tempDir "input.bin" _ w1 Hu Hdot).
Qed.

End ToolGuards.

(** X16: the base name used by convert is the whole name when it has
    no dot, and otherwise the name without its last dot and what
    follows, the part removed holding no dot. *)
Theorem baseOf_extension (inputName : string) :
  (includesChar "." inputName = false -> baseOf inputName = inputName)
  /\ (includesChar "." inputName = true ->
      exists extension,
        inputName = baseOf inputName ++ "." ++ extension
        /\ includesChar "." extension = false).
Proof.
  unfold baseOf.
  assert (H : match beforeLast "." inputName with
              | Some prefix =>
                  includesChar "." inputName = true
                  /\ exists extension, inputName = prefix ++ "." ++ extension
                                       /\ includesChar "." extension = false
              | None => includesChar "." inputName = false
              end).
  { induction inputName as [|c s IH]; simpl; [reflexivity|].
    destruct (beforeLast "." s) as [prefix|].
    - destruct IH as [Hs (ext & -> & Hext)]. split; [now rewrite Hs, orb_true_r|].
      now exists ext.
    - rewrite IH, orb_false_r. destruct (Ascii.eqb_spec c ".") as [->|Hc]; [|reflexivity].
      split; [reflexivity|]. now exists s. }
  destruct (beforeLast "." inputName) as [prefix|].
  - destruct H as [Hs Hext]. split; [congruence|]. intros _. exact Hext.
  - split; [reflexivity|congruence].
Qed.


(** * More of the redaction pipeline *)

Lemma setPage_Forall2 (R : PDFPage -> PDFPage -> Prop) (l : list PDFPage) :
  (forall p, R p p) ->
  forall i p q, nth_error l i = Some p -> R p q -> Forall2 R l (setPage l i q).
Proof.
  intros Hrefl.
  assert (Hsame : forall l, Forall2 R l l)
    by (induction l0; constructor; auto).
  induction l as [|a l IH]; intros [|i] p q Hnth HR; simpl in *; try discriminate.
  - injection Hnth as ->. constructor; auto.
  - constructor; eauto.
Qed.

Lemma covered_refl (p : PDFPage) : covered p p.
Proof. repeat split. exists []. now rewrite app_nil_r. Qed.

Lemma covered_trans (p q r : PDFPage) : covered p q -> covered q r -> covered p r.
Proof.
  intros (W1 & H1 & r1 & C1 & F1) (W2 & H2 & r2 & C2 & F2).
  split; [congruence|]. split; [congruence|].
  exists (r1 ++ r2)%list. rewrite C2, C1, app_assoc. split; [reflexivity|].
  apply Forall_app. now split.
Qed.

Lemma Forall2_covered_trans (l1 l2 l3 : list PDFPage) :
  Forall2 covered l1 l2 -> Forall2 covered l2 l3 -> Forall2 covered l1 l3.
Proof.
  intros H. revert l3. induction H; intros l3 H3; inversion H3; subst; constructor.
  - eapply covered_trans; eauto.
  - auto.
Qed.

Lemma redactEntry_covers (host : Host) (source staged : PDFDocument) (entry : Redaction) :
  redactEntry host source entry = Normal staged ->
  Forall2 covered (pages source) (pages staged).
Proof.
  assert (Hsame : forall l, Forall2 covered l l)
    by (induction l; constructor; auto using covered_refl).
  unfold redactEntry. destruct (lt _ 0 || _); [intros [= <-]; apply Hsame|].
  unfold getPage. destruct (to_integer _) as [[|z|z]|]; try discriminate;
    (destruct (nth_error (pages source) _) as [p|] eqn:Enth; [|discriminate]);
    simpl; intros [= <-]; cbn [pages];
    (eapply setPage_Forall2; [apply covered_refl|exact Enth|]);
    (split; [reflexivity|]; split; [reflexivity|]; eexists; split; [reflexivity|]);
    repeat constructor; eexists _, _, _, _; reflexivity.
Qed.

(** X17: applying the rules changes no page size and removes or
    reorders nothing: every page of the staged document is the source
    page with black rectangles, possibly none, added after its content. *)
Theorem forEach_redact_only_covers (host : Host) (redactions : list Redaction)
    (source staged : PDFDocument) :
  forEach_redact host source redactions = Normal staged ->
  Forall2 (fun p q =>
             pageWidth q = pageWidth p /\ pageHeight q = pageHeight p
             /\ exists rectangles,
                  contents q = (contents p ++ rectangles)%list
                  /\ Forall (fun op => exists x y w h, op = Rectangle x y w h (rgb 0 0 0))
                       rectangles)
    (pages source) (pages staged).
Proof.
  change (forEach_redact host source redactions = Normal staged ->
          Forall2 covered (pages source) (pages staged)).
  revert source. induction redactions as [|entry rest IH]; intros source H; simpl in H.
  - injection H as <-. induction (pages source); constructor; auto using covered_refl.
  - destruct (redactEntry host source entry) as [source'|e] eqn:E; [|discriminate].
    simpl in H. eapply Forall2_covered_trans; [exact (redactEntry_covers _ _ _ _ E)|auto].
Qed.

(** X18: a [redactions] field that is missing, empty, not JSON, or
    JSON other than an array gives no rules and no error: with the
    rasterizer found the request is answered 400, even with a file, and
    nothing is created or run. *)
Theorem unusable_redactions_400 (host : Host) (req : Request) (w : World) (binary : string) :
  resolvePdftoppmBinary host = Some binary ->
  body_redactions req = None
  \/ body_redactions req = Some ""
  \/ (exists text, body_redactions req = Some text /\ JSON_parse host text = None)
  \/ (exists text value,
        body_redactions req = Some text /\ JSON_parse host text = Some value
        /\ forall items, value <> JArray items) ->
  parseRedactions host (body_redactions req) = Normal []
  /\ redactPdf host req w
     = (Normal tt, mkWorld (fs w) (trace w) (Some (json 400 "file and redactions are required"))).
Proof.
  intros Hbin Hraw.
  assert (Hparse : parseRedactions host (body_redactions req) = Normal []).
  { unfold parseRedactions.
    destruct Hraw as [-> | [-> | [(text & -> & Hnone) | (text & value & -> & Hsome & Hnot)]]];
      try reflexivity.
    - destruct (String.eqb text ""); [reflexivity|]. now rewrite Hnone.
    - destruct (String.eqb text ""); [reflexivity|]. rewrite Hsome.
      destruct value; try reflexivity. now destruct (Hnot items). }
  split; [exact Hparse|].
  unfold redactPdf, bind, lift. rewrite Hbin, Hparse. now destruct (file req).
Qed.

Lemma Forall2_image_pages (host : Host) (entries : Dir) (names : list string)
    (images : list PDFImage) :
  Forall2 (imageOf host entries) names images ->
  Forall2 (fun name p =>
             exists img,
               imageOf host entries name img
               /\ pageWidth p = imageWidth img /\ pageHeight p = imageHeight img
               /\ contents p = [Image img 0 0 (imageWidth img) (imageHeight img)])
    names (map imagePage images).
Proof.
  induction 1 as [|name img names images Himg _ IH]; simpl; constructor; [|exact IH].
  exists img. repeat split. exact Himg.
Qed.

(** X19: a 200 answer carries the saved form of a document [out] built
    from the names found in the temporary directory after the
    rasterizer, the program found as [pdftoppm], ran on the staged
    document (the loaded upload with the rules applied).  The names the
    loop goes through are those of the form [redacted-page-<n>.jpg], each
    once.  When the page numbers in that directory are below 2^53, where
    a JavaScript number is the integer itself, the names are in
    ascending page number, and the pages of [out] are, one for one and
    in that order, their images: page [i] has as its whole content the
    image of the [i]-th name, on a page of the image's size. *)
Theorem output_pages_in_page_order (host : Host) (req : Request) (w w' : World)
    (o : Completion unit) (r : Response) :
  response w = None ->
  redactPdf host req w = (o, w') ->
  response w' = Some r ->
  statusOf r = 200 ->
  exists (out source staged : PDFDocument) (buffer : bytes)
         (redactions : list Redaction) (bin tempDir : string) (files1 : FileSystem)
         (entries : Dir),
    r = send "application/pdf" ("attachment; filename=" ++ quoted "redacted.pdf")
          (PDFDocument_save host out)
    /\ file req = Some buffer
    /\ PDFDocument_load host buffer = Normal source
    /\ parseRedactions host (body_redactions req) = Normal redactions
    /\ forEach_redact host source redactions = Normal staged
    /\ resolvePdftoppmBinary host = Some bin
    /\ execFile host bin ["-jpeg"; "-r"; "220"; path_join tempDir "stage-redacted.pdf";
                          path_join tempDir "redacted-page"]
         ((tempDir, [("stage-redacted.pdf", PDFDocument_save host staged)]) :: fs w)
       = (files1, None)
    /\ assoc tempDir files1 = Some entries
    /\ Permutation (generatedImages (map fst entries))
         (filter isRedactedPageJpg (map fst entries))
    /\ (Forall (fun name => (pageNumberOf name < 2 ^ 53)%N) (map fst entries) ->
        StronglySorted (fun a b => (pageNumberOf a <= pageNumberOf b)%N)
          (generatedImages (map fst entries))
        /\ Forall2 (fun name p =>
                      exists img,
                        imageOf host entries name img
                        /\ pageWidth p = imageWidth img /\ pageHeight p = imageHeight img
                        /\ contents p = [Image img 0 0 (imageWidth img) (imageHeight img)])
             (generatedImages (map fst entries)) (pages out)).
Proof.
  intros Hfresh Hrun Hr H200.
  destruct (redactPdf_sent host req w w' o r Hfresh Hrun Hr H200)
    as [bin redactions tempDir buffer source staged files1 entries images
        Hbin Hparse Hfile Hload Hdraw Hexec Hdir Himgs Hsend].
  exists (mkDocument (map imagePage images)), source, staged, buffer, redactions,
         bin, tempDir, files1, entries.
  repeat (split; [assumption|]).
  split; [apply generatedImages_perm|].
  intros _. split.
  - apply (Array_sort_sorted pageNumberOf).
  - exact (Forall2_image_pages host entries _ _ Himgs).
Qed.

(** X20: [/api/redact-pdf] answers every request with status 200,
    400, 500 or 501, and then completes normally unless the final [rm]
    throws; the exceptions are a throw while reading the rules and a
    failing [mkdtemp], both outside the [try]: the handler then throws,
    sends nothing and changes nothing. *)
Theorem redact_answers_unless_setup_throws (host : Host) (req : Request) (w w' : World)
    (o : Completion unit) :
  redactPdf host req w = (o, w') ->
  (exists r, response w' = Some r /\ In (statusOf r) [200; 400; 500; 501]
             /\ (o = Normal tt \/ exists dir e, rm_fault host dir = Some e /\ o = Abrupt e))
  \/ (exists e, o = Abrupt e /\ w' = w
                /\ (parseRedactions host (body_redactions req) = Abrupt e
                    \/ mkdtemp_pick host (path_join (os_tmpdir host) "pdf-toolkit-") (fs w)
                       = Abrupt e)).
Proof.
  intros Hrun. unfold redactPdf in Hrun.
  destruct (resolvePdftoppmBinary host) as [bin|].
  2:{ injection Hrun as <- <-. left. eexists. split; [reflexivity|]. split; [simpl; intuition auto|auto]. }
  unfold bind at 1, lift in Hrun.
  destruct (parseRedactions host (body_redactions req)) as [redactions|e].
  2:{ injection Hrun as <- <-. right. exists e. auto. }
  destruct (negb _ || _).
  { injection Hrun as <- <-. left. eexists. split; [reflexivity|]. split; [simpl; intuition auto|auto]. }
  change (scoped host (redactSteps host bin req redactions) "Redaction failed" w = (o, w'))
    in Hrun.
  destruct (scoped_inv _ _ _ _ _ _ Hrun)
    as [(e & He & -> & ->) | (tempDir & result & w1 & w2 & _ & Hbody & -> & _ & Hr & Hrm)].
  { right. exists e. auto. }
  left. assert (Ho : o = Normal tt \/ exists dir e, rm_fault host dir = Some e /\ o = Abrupt e).
  { destruct (rm_fault host tempDir) as [e|] eqn:Erm.
    - right. exists tempDir, e. tauto.
    - left. tauto. }
  apply redactSteps_outcome in Hbody.
  destruct Hbody as [e _ | H500 | ? ? ? ? ? ? ? _ _ _ _ _ _ _ Hsend].
  - eexists. rewrite Hr. split; [reflexivity|]. split; [simpl; intuition auto|auto].
  - eexists. rewrite Hr. split; [exact H500|]. split; [simpl; intuition auto|auto].
  - eexists. rewrite Hr. split; [exact Hsend|]. split; [simpl; intuition auto|auto].
Qed.


(** ** The page number of an accepted name *)

Lemma match_literal_i_split (literal s rest : string) :
  match_literal_i literal s = Some rest ->
  exists matched, s = matched ++ rest /\ mapChars upcase matched = mapChars upcase literal.
Proof.
  revert s. induction literal as [|p literal IH]; intros s H; simpl in H.
  - injection H as <-. now exists "".
  - destruct s as [|c s]; [discriminate|].
    destruct (Ascii.eqb_spec (upcase p) (upcase c)) as [E|_]; [|discriminate].
    destruct (IH _ H) as (matched & -> & Hm).
    exists (String c matched). simpl. now rewrite Hm, E.
Qed.

Lemma digit_upcase (c : ascii) : is_digit c = true -> upcase c = c.
Proof. destruct c as [[] [] [] [] [] [] [] []]; try discriminate; reflexivity. Qed.

Lemma digits_split (s : string) :
  s = take_digits s ++ drop_digits s
  /\ forall c, includesChar c (take_digits s) = true -> is_digit c = true.
Proof.
  induction s as [|d s [IH1 IH2]]; simpl; [split; [reflexivity|discriminate]|].
  destruct (is_digit d) eqn:Ed; simpl; [|split; [reflexivity|discriminate]].
  split; [now rewrite <- IH1|].
  intros c. rewrite orb_true_iff. intros [H|H]; [|now apply IH2].
  apply Ascii.eqb_eq in H. now subst.
Qed.

Lemma firstDigits_skip (matched rest : string) :
  (forall c, includesChar c (mapChars upcase matched) = true -> is_digit c = false) ->
  firstDigits (matched ++ rest) = firstDigits rest.
Proof.
  induction matched as [|d matched IH]; intros H; [reflexivity|].
  change (String d matched ++ rest) with (String d (matched ++ rest)).
  cbn [firstDigits]. destruct (is_digit d) eqn:Ed.
  - specialize (H d). rewrite Ed in H. simpl in H.
    rewrite (digit_upcase d Ed), Ascii.eqb_refl in H. now specialize (H eq_refl).
  - apply IH. intros c Hc. apply H. simpl. now rewrite Hc, orb_true_r.
Qed.

(** X24: a name kept by the filter is [redacted-page-], in any
    letter case, then one or more digits, then [.jpg], in any letter
    case; and when its page number is below 2^53, where a JavaScript
    number is the integer itself, the number the sort compares is the
    number those digits write: no other digit of the name is read. *)
Theorem accepted_name_page_number (name : string) :
  isRedactedPageJpg name = true ->
  (pageNumberOf name < 2 ^ 53)%N ->
  exists prefix digits extension,
    name = prefix ++ digits ++ extension
    /\ mapChars upcase prefix = "REDACTED-PAGE-"
    /\ digits <> ""
    /\ (forall c, includesChar c digits = true -> is_digit c = true)
    /\ mapChars upcase extension = ".JPG"
    /\ pageNumberOf name = decimal 0 digits.
Proof.
  unfold isRedactedPageJpg. intros H _.
  destruct (match_literal_i "redacted-page-" name) as [rest|] eqn:Eprefix; [|discriminate].
  apply andb_true_iff in H. destruct H as [Hdigits Hext].
  destruct (match_literal_i ".jpg" (drop_digits rest)) as [[|? ?]|] eqn:Eext; try discriminate.
  destruct (match_literal_i_split _ _ _ Eprefix) as (prefix & -> & Hprefix).
  destruct (match_literal_i_split _ _ _ Eext) as (extension & Hrest & Hextension).
  assert (Hnil : forall t : string, t ++ "" = t)
    by (induction t; simpl; congruence).
  rewrite Hnil in Hrest.
  destruct (digits_split rest) as [Hsplit Hall].
  exists prefix, (take_digits rest), (drop_digits rest).
  split; [now rewrite <- Hsplit|]. split; [exact Hprefix|].
  split; [intros E; now rewrite E in Hdigits|]. split; [exact Hall|].
  split.
  - rewrite Hrest. exact Hextension.
  - unfold pageNumberOf. rewrite firstDigits_skip.
    + destruct rest as [|d rest]; [discriminate|]. simpl in *.
      destruct (is_digit d); [reflexivity|discriminate].
    + rewrite Hprefix. intros c Hc. cbn [includesChar mapChars] in Hc.
      rewrite !orb_true_iff in Hc.
      repeat (destruct Hc as [Hc|Hc]; [apply Ascii.eqb_eq in Hc; subst c; reflexivity|]).
      discriminate.
Qed.

Lemma accepted_name_page_number_witness :
  isRedactedPageJpg "Redacted-Page-012.JPG" = true
  /\ (pageNumberOf "Redacted-Page-012.JPG" < 2 ^ 53)%N
  /\ exists prefix digits extension,
       "Redacted-Page-012.JPG" = prefix ++ digits ++ extension
       /\ mapChars upcase prefix = "REDACTED-PAGE-"
       /\ digits <> ""
       /\ (forall c, includesChar c digits = true -> is_digit c = true)
       /\ mapChars upcase extension = ".JPG"
       /\ pageNumberOf "Redacted-Page-012.JPG" = decimal 0 digits.
Proof.
  split; [reflexivity|]. split; [reflexivity|].
  exact (accepted_name_page_number "Redacted-Page-012.JPG" eq_refl eq_refl).
Defined.

(** * The browser side *)

Lemma trimStart_fixed (c : ascii) (s : string) :
  isWhiteSpace c = false -> trimStart (String c s) = String c s.
Proof. intros E. simpl. now rewrite E. Qed.

Lemma trimEnd_head (c : ascii) (s : string) :
  isWhiteSpace c = false -> exists rest, trimEnd (String c s) = String c rest.
Proof.
  intros E. simpl. destruct (trimEnd s); rewrite ?E; eauto.
Qed.

Lemma trim_head (s : string) :
  trim s = "" \/ exists c rest, trim s = String c rest /\ isWhiteSpace c = false.
Proof.
  unfold trim. induction s as [|c s IH]; [now left|]. cbn [trimStart].
  destruct (isWhiteSpace c) eqn:E; [exact IH|]. right.
  destruct (trimEnd_head c s E) as [rest ->]. eauto.
Qed.

Lemma dropFinalSlash_head (c : ascii) (s : string) :
  dropFinalSlash (String c s) = "" \/ exists rest, dropFinalSlash (String c s) = String c rest.
Proof.
  destruct s as [|d s]; simpl.
  - destruct (Ascii.eqb c "/"); eauto.
  - eauto.
Qed.

Lemma normalizeBaseUrl_head (value : string) :
  Client.normalizeBaseUrl value = ""
  \/ exists c rest, Client.normalizeBaseUrl value = String c rest /\ isWhiteSpace c = false.
Proof.
  unfold Client.normalizeBaseUrl.
  destruct (trim_head value) as [->|(c & rest & -> & Hc)]; [now left|].
  destruct (dropFinalSlash_head c rest) as [->|[rest' ->]]; eauto.
Qed.

Lemma trimEnd_snoc (s : string) (c : ascii) :
  isWhiteSpace c = false -> trimEnd (s ++ String c "") = s ++ String c "".
Proof.
  intros E. induction s as [|d s IH]; simpl.
  - now rewrite E.
  - rewrite IH. destruct s; reflexivity.
Qed.

Lemma dropFinalSlash_snoc (s : string) : dropFinalSlash (s ++ "/") = s.
Proof.
  induction s as [|d s IH]; [reflexivity|].
  change (String d s ++ "/") with (String d (s ++ "/")).
  destruct (s ++ "/") as [|a s0] eqn:E; [now destruct s|].
  change (dropFinalSlash (String d (String a s0)))
    with (String d (dropFinalSlash (String a s0))).
  f_equal. first [exact IH | rewrite <- E; exact IH].
Qed.

Lemma get_after_set (VITE_API_BASE_URL : option string) (value : string)
    (storage : Client.Storage) :
  Client.getApiBaseUrl VITE_API_BASE_URL true (Client.setApiBaseUrl true value storage)
  = (if String.eqb (Client.normalizeBaseUrl value) ""
     then Client.normalizeBaseUrl (Client.configuredBase VITE_API_BASE_URL)
     else Client.normalizeBaseUrl (Client.normalizeBaseUrl value)).
Proof.
  unfold Client.getApiBaseUrl, Client.setApiBaseUrl. cbn [negb].
  destruct (normalizeBaseUrl_head value) as [->|(c & rest & E & Hc)]; [reflexivity|].
  rewrite E. cbn [String.eqb negb andb].
  unfold trim. rewrite (trimStart_fixed c rest Hc).
  destruct (trimEnd_head c rest Hc) as [rest' ->]. reflexivity.
Qed.


(** X22: after saving a base, with or without one final slash,
    [apiUrl] sends a path to that base followed by the path, with a
    single slash between them. *)
Theorem saved_base_is_used (VITE_API_BASE_URL : option string) (base path : string)
    (storage : Client.Storage) :
  base <> "" -> trim base = base -> dropFinalSlash base = base ->
  startsWithChar "/" path = true ->
  Client.apiUrl VITE_API_BASE_URL true (Client.setApiBaseUrl true base storage) path
  = Normal (base ++ path)
  /\ Client.apiUrl VITE_API_BASE_URL true (Client.setApiBaseUrl true (base ++ "/") storage) path
     = Normal (base ++ path).
Proof.
  intros Hne Htrim Hslash Hpath.
  assert (Hn : Client.normalizeBaseUrl base = base)
    by (unfold Client.normalizeBaseUrl; now rewrite Htrim).
  assert (Hn' : Client.normalizeBaseUrl (base ++ "/") = base).
  { unfold Client.normalizeBaseUrl.
    assert (Ht : trim (base ++ "/") = base ++ "/").
    { destruct (trim_head base) as [E|(c & rest & E & Hc)]; [congruence|].
      rewrite Htrim in E. rewrite E. unfold trim.
      change (String c rest ++ "/") with (String c (rest ++ "/")).
      rewrite (trimStart_fixed _ _ Hc).
      change (String c (rest ++ "/")) with (String c rest ++ String "/" "").
      now apply trimEnd_snoc. }
    rewrite Ht. apply dropFinalSlash_snoc. }
  assert (Huse : forall stored, Client.normalizeBaseUrl stored = base ->
            Client.apiUrl VITE_API_BASE_URL true (Client.setApiBaseUrl true stored storage) path
            = Normal (base ++ path)).
  { intros stored Hs. unfold Client.apiUrl. rewrite Hpath. cbn [negb].
    rewrite (get_after_set VITE_API_BASE_URL stored storage).
    rewrite Hs, Hn. destruct (String.eqb_spec base ""); [contradiction|].
    now destruct (String.eqb_spec base ""). }
  split; [now apply Huse|now apply Huse].
Qed.


Lemma resolved_is_truthy (host : Host) (configured : option string) (fixed : list string) :
  Forall (fun c => c <> "") fixed ->
  Boolean_ (findBinary host (candidates_of configured fixed))
  = match findBinary host (candidates_of configured fixed) with
    | Some _ => true
    | None => false
    end.
Proof.
  intros Hfixed. destruct (findBinary host _) as [found|] eqn:E; [|reflexivity].
  destruct (candidates_found _ _ _ _ E) as (_ & [[_ Hne]|Hin] & _).
  - simpl. now destruct (String.eqb_spec found "").
  - rewrite Forall_forall in Hfixed. specialize (Hfixed _ Hin).
    simpl. now destruct (String.eqb_spec found "").
Qed.

(** X23: fed with the body the server's health endpoint sends, the
    system check shows no row as offline: the three qpdf rows are ready
    exactly when the server resolved qpdf, the two LibreOffice rows
    exactly when it resolved LibreOffice, the two API rows always; no
    row reports on the rasterizer.  Without an answer every row is
    offline. *)
Theorem system_check_of_server (host : Host) :
  let shown (resolved : option string) :=
    match resolved with Some _ => Client.ready | None => Client.missing end in
  map (fun row => (Client.tool row, Client.dependency row, Client.status row))
    (Client.rows (Some (Client.received (health host))))
  = [ ("Protect PDF", "qpdf", shown (resolveQpdfBinary host));
      ("Unlock PDF", "qpdf", shown (resolveQpdfBinary host));
      ("Repair PDF", "qpdf", shown (resolveQpdfBinary host));
      ("PowerPoint to PDF", "LibreOffice", shown (resolveLibreOfficeBinary host));
      ("PDF to Word / PowerPoint / Excel", "LibreOffice",
       shown (resolveLibreOfficeBinary host));
      ("PDF to Text", "Backend API", Client.ready);
      ("OCR PDF", "Backend API", Client.ready) ]
  /\ Forall (fun row => Client.status row = Client.offline) (Client.rows None).
Proof.
  split; [|repeat constructor].
  unfold Client.rows, Client.received, health, Client.truthy.
  cbn [Client.hr_ok Client.hr_binaries Client.hb_qpdf Client.hb_libreoffice ok binaries
       qpdf libreoffice map Client.tool Client.dependency Client.status].
  unfold resolveQpdfBinary, resolveLibreOfficeBinary.
  rewrite !resolved_is_truthy by (repeat constructor; discriminate).
  destruct (findBinary host (candidates_of (env_QPDF_PATH host) _));
    destruct (findBinary host (candidates_of (env_LIBREOFFICE_PATH host) _)); reflexivity.
Qed.


(** ** The sample hosts at work on the rest of the server *)

Lemma findBinary_first_executable_witness :
  findBinary (Sample.host true) ["pdftoppm"; "/usr/bin/pdftoppm"; "C:/poppler/pdftoppm.exe"]
  = Some "/usr/bin/pdftoppm".
Proof.
  apply (proj1 (findBinary_first_executable (Sample.host true) _)).
  exists ["pdftoppm"], ["C:/poppler/pdftoppm.exe"].
  split; [reflexivity|]. split; [reflexivity|]. repeat constructor.
Defined.

Lemma resolved_binary_witness :
  resolveLibreOfficeBinary Office.host = Some "/opt/libreoffice/soffice"
  /\ access_X_OK Office.host "/opt/libreoffice/soffice" = true.
Proof.
  split; [reflexivity|].
  exact (proj1 (proj1 (proj2 (resolved_binary Office.host)) "/opt/libreoffice/soffice" eq_refl)).
Defined.

Lemma sanitizeBasename_safe_witness :
  sanitizeBasename (Some "annual report (final).pdf") = "annual_report__final_.pdf"
  /\ String.length (sanitizeBasename (Some "annual report (final).pdf")) = 25.
Proof.
  split; [reflexivity|].
  rewrite (proj2 (proj2 (proj2 (sanitizeBasename_safe (Some "annual report (final).pdf"))))
             "annual report (final).pdf" eq_refl); [reflexivity|discriminate].
Defined.

Lemma sanitizeBasename_idempotent_witness :
  sanitizeBasename (Some "scan-2024_v1.pdf") = "scan-2024_v1.pdf".
Proof.
  apply (proj2 (sanitizeBasename_idempotent (Some "scan-2024_v1.pdf")) _ eq_refl);
    [discriminate|].
  intros c H. cbn [includesChar] in H. rewrite !orb_true_iff in H.
  repeat (destruct H as [H|H];
          [apply Ascii.eqb_eq in H; subst c; reflexivity|]).
  discriminate.
Defined.

Lemma allowedOrigins_entries_witness :
  allowedOrigins (Some " https://a.example , ,http://localhost:5173,")
  = ["https://a.example"; "http://localhost:5173"]
  /\ Forall (fun origin =>
               origin <> "" /\ trim origin = origin /\ includesChar "," origin = false)
       ["https://a.example"; "http://localhost:5173"].
Proof.
  split; [reflexivity|].
  exact (allowedOrigins_entries (Some " https://a.example , ,http://localhost:5173,")).
Defined.

Lemma blank_allow_list_admits_all_witness :
  corsOrigin (allowedOrigins (Some " , ,")) (Some "https://anywhere.example") = Normal true.
Proof.
  apply (blank_allow_list_admits_all (Some " , ,")).
  intros value c [= <-]. cbn [includesChar]. rewrite !orb_true_iff.
  intros [H|[H|[H|[H|H]]]]; try discriminate; apply Ascii.eqb_eq in H; subst c; auto.
Defined.


Lemma tools_temp_dir_removed_witness :
  let req := mkToolRequest (Some Office.report) (Some "wrong") None in
  let run := unlockPdf Office.host Office.notAFile req Sample.idle in
  response (snd run) = Some (json 500 "qpdf: invalid password")
  /\ (exists steps,
        trace (snd run)
        = (Mkdtemp "/tmp/pdf-toolkit-Qw9rTz" :: steps ++ [Rm "/tmp/pdf-toolkit-Qw9rTz"])%list
        /\ Forall inner steps)
  /\ assoc "/tmp/pdf-toolkit-Qw9rTz" (fs (snd run)) = None.
Proof.
  intros req run.
  destruct (tools_temp_dir_removed Office.host Office.notAFile Office.readElsewhere
              "/api/unlock-pdf" (unlockPdf Office.host Office.notAFile) req
              Sample.idle (snd run) (fst run) "/tmp/pdf-toolkit-Qw9rTz" (trace (snd run)))
    as [Hsteps Hgone];
    [reflexivity | vm_compute; reflexivity | reflexivity | vm_compute; now left |].
  split; [vm_compute; reflexivity|]. split; [exact Hsteps|]. apply Hgone. reflexivity.
Defined.

Lemma tools_answer_unless_mkdtemp_fails_witness :
  let req := mkToolRequest (Some Office.report) None (Some "DOCX") in
  let run := convert Office.host Office.notAFile Office.readElsewhere req Sample.idle in
  (exists r, response (snd run) = Some r /\ In (statusOf r) [200; 400; 500; 501]
             /\ (fst run = Normal tt
                 \/ exists dir e, rm_fault Office.host dir = Some e /\ fst run = Abrupt e))
  \/ (exists e,
        mkdtemp_pick Office.host (path_join (os_tmpdir Office.host) "pdf-toolkit-")
          (fs Sample.idle) = Abrupt e
        /\ fst run = Abrupt e /\ snd run = Sample.idle).
Proof.
  intros req run.
  apply (tools_answer_unless_mkdtemp_fails Office.host Office.notAFile Office.readElsewhere
           "/api/convert" (convert Office.host Office.notAFile Office.readElsewhere) req
           Sample.idle (snd run) (fst run)); [reflexivity | vm_compute; reflexivity].
Defined.


Lemma unlock_success_witness :
  let req := mkToolRequest (Some Office.report) None None in
  let run := unlockPdf Office.host Office.notAFile req Sample.idle in
  exists tempDir,
    trace (snd run)
    = [Mkdtemp tempDir; WriteFile tempDir "annual_report__final_.pdf";
       ExecFile "qpdf" ["--decrypt"; path_join tempDir "annual_report__final_.pdf";
                        path_join tempDir "unlocked.pdf"];
       Rm tempDir].
Proof.
  intros req run.
  destruct (unlock_success Office.host Office.notAFile req Sample.idle (snd run) (fst run)
              (send "application/pdf" ("attachment; filename=" ++ quoted "unlocked.pdf")
                 [Byte.x01; Byte.x25; Byte.x50]))
    as (qpdf & u & tempDir & files1 & entries & out & Hbin & Hu & _ & _ & _ & _ & Htrace);
    [reflexivity | vm_compute; reflexivity | vm_compute; reflexivity | reflexivity |].
  exists tempDir. injection Hbin as <-. injection Hu as <-. exact Htrace.
Defined.

Lemma convert_success_witness :
  let req := mkToolRequest (Some Office.report) None (Some "DOCX") in
  let run := convert Office.host Office.notAFile Office.readElsewhere req Sample.idle in
  exists tempDir,
    trace (snd run)
    = [Mkdtemp tempDir; WriteFile tempDir "annual_report__final_.pdf";
       ExecFile "/opt/libreoffice/soffice"
         ["--headless"; "--convert-to"; "docx"; "--outdir"; tempDir;
          path_join tempDir "annual_report__final_.pdf"];
       Rm tempDir].
Proof.
  intros req run.
  destruct (convert_success Office.host Office.notAFile Office.readElsewhere req
              Sample.idle (snd run) (fst run)
              (send "application/octet-stream"
                 ("attachment; filename=" ++ quoted "annual_report__final_.docx")
                 [Byte.x02; Byte.x25; Byte.x50]))
    as (soffice & u & tempDir & files1 & out & Hbin & Hu & _ & _ & _ & _ & _ & Htrace);
    [reflexivity | vm_compute; reflexivity | vm_compute; reflexivity | reflexivity |].
  exists tempDir. injection Hbin as <-. injection Hu as <-. exact Htrace.
Defined.

Lemma tools_missing_binary_501_witness :
  resolveQpdfBinary (Sample.host true) = None
  /\ repairPdf (Sample.host true) Office.notAFile
       (mkToolRequest (Some Office.report) None None) Sample.idle
     = (Normal tt,
        mkWorld [] [] (Some (json 501 "qpdf binary not found. Set QPDF_PATH or install qpdf."))).
Proof.
  split; [reflexivity|].
  exact (proj2 (proj2 (proj1 (tools_missing_binary_501 (Sample.host true) Office.notAFile
                                Office.readElsewhere
                                (mkToolRequest (Some Office.report) None None) Sample.idle)
                         eq_refl))).
Defined.

Lemma tools_missing_input_400_witness :
  resolveQpdfBinary Office.host = Some "qpdf"
  /\ protectPdf Office.host Office.notAFile
       (mkToolRequest (Some Office.report) (Some "") None) Sample.idle
     = (Normal tt, mkWorld [] [] (Some (json 400 "file and password are required"))).
Proof.
  split; [reflexivity|].
  exact (proj1 (proj1 (tools_missing_input_400 Office.host Office.notAFile
                         Office.readElsewhere
                         (mkToolRequest (Some Office.report) (Some "") None) Sample.idle
                         "qpdf") eq_refl)
           (or_intror (or_intror eq_refl))).
Defined.

Lemma dot_upload_never_reaches_the_binary_witness :
  let req := mkToolRequest (Some (mkUpload (Some "..") [Byte.x25])) (Some "s3cret") None in
  let run := protectPdf Office.host Office.notAFile req Sample.idle in
  trace (snd run)
  = [Mkdtemp "/tmp/pdf-toolkit-Qw9rTz"; WriteFile "/tmp/pdf-toolkit-Qw9rTz" "..";
     Rm "/tmp/pdf-toolkit-Qw9rTz"]
  /\ forall file args, ~ In (ExecFile file args) (trace (snd run)).
Proof.
  intros req run. split; [vm_compute; reflexivity|].
  apply (dot_upload_never_reaches_the_binary Office.host Office.notAFile Office.readElsewhere
           "/api/protect-pdf" (protectPdf Office.host Office.notAFile) req
           (mkUpload (Some "..") [Byte.x25]) Sample.idle (snd run) (fst run)
           (trace (snd run)));
    [reflexivity | reflexivity | now right | vm_compute; reflexivity | reflexivity].
Defined.

Lemma baseOf_extension_witness :
  baseOf "backup.tar.gz" = "backup.tar"
  /\ exists extension,
       "backup.tar.gz" = baseOf "backup.tar.gz" ++ "." ++ extension
       /\ includesChar "." extension = false.
Proof.
  split; [reflexivity|].
  exact (proj2 (baseOf_extension "backup.tar.gz") eq_refl).
Defined.

Lemma forEach_redact_only_covers_witness :
  Forall2 (fun p q =>
             pageWidth q = pageWidth p /\ pageHeight q = pageHeight p
             /\ exists rectangles,
                  contents q = (contents p ++ rectangles)%list
                  /\ Forall (fun op => exists x y w h, op = Rectangle x y w h (rgb 0 0 0))
                       rectangles)
    [Sample.letterPage; Sample.letterPage]
    [mkPage 612 792 [SourceContent "confidential"; Rectangle 61.2 554.4 367.2 79.2 (rgb 0 0 0)];
     Sample.letterPage].
Proof.
  exact (forEach_redact_only_covers (Sample.host true)
           [mkRedaction 1 0.1 0.2 0.6 0.1; mkRedaction 7 0 0 1 1]
           (mkDocument [Sample.letterPage; Sample.letterPage])
           (mkDocument [mkPage 612 792 [SourceContent "confidential";
                                        Rectangle 61.2 554.4 367.2 79.2 (rgb 0 0 0)];
                        Sample.letterPage])
           eq_refl).
Defined.

Lemma unusable_redactions_400_witness :
  JSON_parse (Sample.host true) "{not json" = None
  /\ redactPdf (Sample.host true) (Sample.upload 2 "{not json") Sample.idle
     = (Normal tt, mkWorld [] [] (Some (json 400 "file and redactions are required"))).
Proof.
  split; [reflexivity|].
  apply (unusable_redactions_400 (Sample.host true) (Sample.upload 2 "{not json")
           Sample.idle "/usr/bin/pdftoppm" eq_refl).
  right. right. left. exists "{not json". split; reflexivity.
Defined.

Lemma output_pages_in_page_order_witness :
  let run := redactPdf (Sample.host true) (Sample.upload 10 Sample.oneRule) Sample.idle in
  exists out entries,
    response (snd run)
    = Some (send "application/pdf" ("attachment; filename=" ++ quoted "redacted.pdf")
              (PDFDocument_save (Sample.host true) out))
    /\ List.length (pages out) = 10
    /\ Forall (fun name => (pageNumberOf name < 2 ^ 53)%N) (map fst entries)
    /\ StronglySorted (fun a b => (pageNumberOf a <= pageNumberOf b)%N)
         (generatedImages (map fst entries))
    /\ Forall2 (fun name p =>
                  exists img,
                    imageOf (Sample.host true) entries name img
                    /\ pageWidth p = imageWidth img /\ pageHeight p = imageHeight img
                    /\ contents p = [Image img 0 0 (imageWidth img) (imageHeight img)])
         (generatedImages (map fst entries)) (pages out).
Proof.
  intros run.
  destruct (output_pages_in_page_order (Sample.host true) (Sample.upload 10 Sample.oneRule)
              Sample.idle (snd run) (fst run)
              (send "application/pdf" ("attachment; filename=" ++ quoted "redacted.pdf")
                 (repeat Byte.x25 10)))
    as (out & source & staged & buffer & redactions & bin & tempDir & files1 & entries
        & Hr & _ & _ & _ & _ & _ & Hexec & Hdir & _ & Hordered);
    [reflexivity | vm_compute; reflexivity | vm_compute; reflexivity | reflexivity |].
  assert (Hbound : Forall (fun name => (pageNumberOf name < 2 ^ 53)%N) (map fst entries)).
  { cbn [execFile Sample.host PDFDocument_save map existsb] in Hexec.
    injection Hexec as <- Hfail.
    cbn [assoc] in Hdir. rewrite String.eqb_refl in Hdir. injection Hdir as <-.
    destruct (Sample.tooLong _) eqn:Elong; [discriminate|]. clear Hfail.
    unfold Sample.tooLong, Sample.rasterize in *. cbn [assoc] in *.
    rewrite String.eqb_refl in *.
    destruct staged as [ps]. cbn [pages] in *. rewrite length_map in *.
    do 11 (destruct ps as [|? ps]; [repeat constructor|]).
    discriminate. }
  destruct (Hordered Hbound) as [Hsorted Hpages].
  exists out, entries. split; [|split; [|split; [exact Hbound|split; assumption]]].
  - vm_compute. vm_compute in Hr. now rewrite Hr.
  - injection Hr as Hr. cbn [PDFDocument_save Sample.host] in Hr.
    rewrite <- (length_map (fun _ => Byte.x25)), <- Hr. reflexivity.
Defined.

Lemma redact_answers_unless_setup_throws_witness :
  let run := redactPdf (Sample.host true) (Sample.upload 1 "[null]") Sample.idle in
  (exists r, response (snd run) = Some r /\ In (statusOf r) [200; 400; 500; 501]
             /\ (fst run = Normal tt
                 \/ exists dir e, rm_fault (Sample.host true) dir = Some e /\ fst run = Abrupt e))
  \/ (exists e, fst run = Abrupt e /\ snd run = Sample.idle
                /\ (parseRedactions (Sample.host true) (Some "[null]") = Abrupt e
                    \/ mkdtemp_pick (Sample.host true)
                         (path_join (os_tmpdir (Sample.host true)) "pdf-toolkit-")
                         (fs Sample.idle) = Abrupt e)).
Proof.
  intros run.
  apply (redact_answers_unless_setup_throws (Sample.host true)
           (Sample.upload 1 "[null]") Sample.idle (snd run) (fst run)).
  vm_compute. reflexivity.
Defined.


Lemma saved_base_is_used_witness :
  Client.apiUrl None true (Client.setApiBaseUrl true "http://vm.example:8787/" None)
    "/api/health"
  = Normal "http://vm.example:8787/api/health".
Proof.
  exact (proj2 (saved_base_is_used None "http://vm.example:8787" "/api/health" None
                  ltac:(discriminate) eq_refl eq_refl eq_refl)).
Defined.
